(** * CashRegister: the Python API client (clients/python/cash_register.py)

    A shallow embedding of the command-line client.  The client is
    straight-line code around four calls into its environment (the file
    system and the HTTP server), so the embedding is a small trace/error
    monad: a run of [main] yields the list of the calls it made, in
    order, together with the way it ended.  A call is recorded when it
    is made; the environment then answers, or raises.

    Conventions.
    - A Python [str] is a [string] whose characters are code points below
      256.
    - A decoded JSON document is a [pyval]; JSON numbers with a fraction
      (Python floats) are not part of the embedding.
    - [pathlib.Path] is modelled in its POSIX flavour.
    - [main] is modelled from the point where [parser.parse_args()] has
      returned the namespace [args]; the guard around [import requests]
      at the top of the module runs before [main] and is modelled
      apart ([script]). *)

From Stdlib Require Import ZArith List String Ascii Bool.
From Stdlib Require Import DecimalString.
Import ListNotations.
Local Open Scope string_scope.
Local Open Scope Z_scope.

(** ** Python values *)

#[warnings="-register-all"]
Inductive pyval : Type :=
| VNone
| VBool (b : bool)
| VInt (z : Z)
| VStr (s : string)
| VList (l : list pyval)
| VDict (d : list (string * pyval)).

(** [type(v).__name__] *)
Definition type_name (v : pyval) : string :=
  match v with
  | VNone => "NoneType"
  | VBool _ => "bool"
  | VInt _ => "int"
  | VStr _ => "str"
  | VList _ => "list"
  | VDict _ => "dict"
  end.

(** [bool(v)]: the test of an [if]. *)
Definition truthy (v : pyval) : bool :=
  match v with
  | VNone => false
  | VBool b => b
  | VInt z => negb (z =? 0)
  | VStr s => negb (String.eqb s EmptyString)
  | VList l => match l with [] => false | _ => true end
  | VDict d => match d with [] => false | _ => true end
  end.

(** Lookup in a dict kept as an association list in insertion order. *)
Fixpoint lookup (k : string) (d : list (string * pyval)) : option pyval :=
  match d with
  | [] => None
  | (k', v) :: d' => if String.eqb k k' then Some v else lookup k d'
  end.

(** *** [str] and [repr] *)

Definition str_of_Z (z : Z) : string := NilZero.string_of_int (Z.to_int z).
Definition str_of_nat (n : nat) : string := str_of_Z (Z.of_nat n).

Definition squote : ascii := ascii_of_N 39.
Definition dquote : ascii := ascii_of_N 34.
Definition backslash : ascii := ascii_of_N 92.

Definition hex_digit (n : N) : ascii :=
  ascii_of_N (if (n <? 10)%N then 48 + n else 87 + n)%N.

Definition hex_escape (c : ascii) : string :=
  let n := N_of_ascii c in
  String backslash
    (String "x" (String (hex_digit (n / 16)) (String (hex_digit (n mod 16)) EmptyString))).

Fixpoint string_mem (c : ascii) (s : string) : bool :=
  match s with
  | EmptyString => false
  | String c' s' => Ascii.eqb c c' || string_mem c s'
  end.

(** [repr] of one character of a [str], for the chosen quote. *)
Definition repr_char (quote c : ascii) : string :=
  let n := N_of_ascii c in
  if Ascii.eqb c quote || Ascii.eqb c backslash then String backslash (String c EmptyString)
  else if (n =? 9)%N then String backslash "t"
  else if (n =? 10)%N then String backslash "n"
  else if (n =? 13)%N then String backslash "r"
  else if (n <? 32)%N || (n =? 127)%N then hex_escape c
  else if (n <? 127)%N then String c EmptyString
  else if (n <=? 160)%N || (n =? 173)%N then hex_escape c
  else String c EmptyString.

Fixpoint repr_chars (quote : ascii) (s : string) : string :=
  match s with
  | EmptyString => EmptyString
  | String c s' => repr_char quote c ++ repr_chars quote s'
  end.

Definition repr_str (s : string) : string :=
  let quote := if string_mem squote s && negb (string_mem dquote s)
               then dquote else squote in
  String quote (repr_chars quote s ++ String quote EmptyString).

Fixpoint py_repr (v : pyval) : string :=
  match v with
  | VNone => "None"
  | VBool true => "True"
  | VBool false => "False"
  | VInt z => str_of_Z z
  | VStr s => repr_str s
  | VList l =>
      "[" ++ String.concat ", " (map py_repr l) ++ "]"
  | VDict d =>
      "{" ++ String.concat ", "
               (map (fun kv => repr_str (fst kv) ++ ": " ++ py_repr (snd kv)) d)
          ++ "}"
  end.

(** [str(v)], which is what an f-string field [{v}] and [print(v)] use. *)
Definition py_str (v : pyval) : string :=
  match v with
  | VStr s => s
  | _ => py_repr v
  end.

(** The newline character and [sep.join] on strings. *)
Definition nl : string := String (ascii_of_N 10) EmptyString.

(** ** Exceptions

    An exception is its class and [str(e)].  Exceptions raised by the
    environment (requests, the file system) carry the class under which
    an [except] clause of this program can catch them. *)

Inductive exn_class : Type :=
| Exception | RequestException | OSError | ValueError
| AttributeError | KeyError | TypeError.

Record exn : Type := mkExn { exn_cls : exn_class; exn_str : string }.

Inductive res (A : Type) : Type :=
| Ok (a : A)
| Err (e : exn).
Arguments Ok {A} a.
Arguments Err {A} e.

Definition is_request_exception (e : exn) : bool :=
  match exn_cls e with RequestException => true | _ => false end.

(** Every modelled class derives from [Exception]. *)
Definition is_exception (e : exn) : bool := true.

(** *** Operations on decoded JSON that can raise *)

(** [v.get(key, default)] *)
Definition py_get (v : pyval) (key : string) (default : pyval) : res pyval :=
  match v with
  | VDict d => Ok (match lookup key d with Some x => x | None => default end)
  | _ => Err (mkExn AttributeError
                (String squote (type_name v) ++ String squote " object has no attribute "
                 ++ String squote ("get" ++ String squote EmptyString)))
  end.

(** [v[key]] for a string key *)
Definition py_getitem (v : pyval) (key : string) : res pyval :=
  match v with
  | VDict d =>
      match lookup key d with
      | Some x => Ok x
      | None => Err (mkExn KeyError (repr_str key))
      end
  | VList _ =>
      Err (mkExn TypeError "list indices must be integers or slices, not str")
  | VStr _ =>
      Err (mkExn TypeError
             ("string indices must be integers, not "
              ++ String squote ("str" ++ String squote EmptyString)))
  | _ =>
      Err (mkExn TypeError
             (String squote (type_name v) ++ String squote " object is not subscriptable"))
  end.

Fixpoint chars (s : string) : list pyval :=
  match s with
  | EmptyString => []
  | String c s' => VStr (String c EmptyString) :: chars s'
  end.

(** The items [for x in v] and [list.extend(v)] go through. *)
Definition py_iter (v : pyval) : res (list pyval) :=
  match v with
  | VList l => Ok l
  | VStr s => Ok (chars s)
  | VDict d => Ok (map (fun kv => VStr (fst kv)) d)
  | _ => Err (mkExn TypeError
                (String squote (type_name v) ++ String squote " object is not iterable"))
  end.

(** [len(v)] *)
Definition py_len (v : pyval) : res nat :=
  match v with
  | VList l => Ok (List.length l)
  | VStr s => Ok (String.length s)
  | VDict d => Ok (List.length d)
  | _ => Err (mkExn TypeError
                ("object of type " ++ String squote (type_name v)
                 ++ String squote " has no len()"))
  end.

(** The strings of a list whose items are all [str], else the index and
    the first offending item. *)
Fixpoint all_str (i : nat) (l : list pyval) : (nat * pyval) + list string :=
  match l with
  | [] => inr []
  | VStr s :: l' =>
      match all_str (S i) l' with
      | inr ss => inr (s :: ss)
      | inl bad => inl bad
      end
  | v :: _ => inl (i, v)
  end.

(** [sep.join(l)] *)
Definition py_join (sep : string) (l : list pyval) : res string :=
  match all_str 0 l with
  | inr ss => Ok (String.concat sep ss)
  | inl (i, v) =>
      Err (mkExn TypeError
             ("sequence item " ++ str_of_nat i ++ ": expected str instance, "
              ++ type_name v ++ " found"))
  end.

(** ** pathlib (POSIX flavour)

    A path is its root (empty, one slash, or exactly two slashes) and its
    components; empty components and single dots are dropped when a
    string is parsed, double dots are kept. *)

Record Path : Type := mkPath { root : string; parts : list string }.

Definition slash : ascii := ascii_of_N 47.
Definition dot : ascii := ascii_of_N 46.

(** [s.split('/')] *)
Fixpoint split_slash (s : string) : list string :=
  match s with
  | EmptyString => [EmptyString]
  | String c s' =>
      if Ascii.eqb c slash then EmptyString :: split_slash s'
      else match split_slash s' with
           | x :: xs => String c x :: xs
           | [] => [String c EmptyString]
           end
  end.

(** [posixpath.splitroot], without the drive, which is always empty. *)
Definition splitroot (p : string) : string * string :=
  match p with
  | String c0 r0 =>
      if Ascii.eqb c0 slash then
        match r0 with
        | String c1 r1 =>
            if Ascii.eqb c1 slash then
              match r1 with
              | String c2 _ =>
                  if Ascii.eqb c2 slash then ("/", r0) else ("//", r1)
              | EmptyString => ("//", r1)
              end
            else ("/", r0)
        | EmptyString => ("/", r0)
        end
      else (EmptyString, p)
  | EmptyString => (EmptyString, p)
  end.

Definition parse_parts (rel : string) : list string :=
  filter (fun x => negb (String.eqb x EmptyString) && negb (String.eqb x "."))
         (split_slash rel).

(** [Path(s)] for a string [s] *)
Definition Path_of_str (s : string) : Path :=
  let (r, rel) := splitroot s in mkPath r (parse_parts rel).

(** [str(p)] *)
Definition Path_str (p : Path) : string :=
  let s := root p ++ String.concat "/" (parts p) in
  if String.eqb s EmptyString then "." else s.

(** [p / seg] for a string segment *)
Definition joinpath (p : Path) (seg : string) : Path :=
  match seg with
  | String c _ =>
      if Ascii.eqb c slash then Path_of_str seg
      else mkPath (root p) (parts p ++ parse_parts seg)
  | EmptyString => p
  end.

Declare Scope path_scope.
Delimit Scope path_scope with path.
Infix "/" := joinpath : path_scope.

(** [p.parent] *)
Definition parent (p : Path) : Path :=
  match parts p with
  | [] => p
  | _ => mkPath (root p) (removelast (parts p))
  end.

(** [p.name] *)
Definition name (p : Path) : string := last (parts p) EmptyString.

(** [s.rfind('.')] *)
Fixpoint rfind_dot (s : string) : option nat :=
  match s with
  | EmptyString => None
  | String c s' =>
      match rfind_dot s' with
      | Some i => Some (S i)
      | None => if Ascii.eqb c dot then Some O else None
      end
  end.

(** [p.stem]: the final component without its last suffix (CPython up to
    3.13: a leading or a trailing dot starts no suffix). *)
Definition stem (p : Path) : string :=
  let n := name p in
  match rfind_dot n with
  | Some i =>
      if Nat.ltb 0 i && Nat.ltb (S i) (String.length n)
      then substring 0 i n else n
  | None => n
  end.

(** A value that is either a [str] or a [Path], as [output_path] is in
    [main]; [Path(x)] accepts both. *)
Inductive str_or_path : Type :=
| AsStr (s : string)
| AsPath (p : Path).

Definition Path_ctor (x : str_or_path) : Path :=
  match x with
  | AsStr s => Path_of_str s
  | AsPath p => p
  end.

(** ** Effects *)

Inductive stream : Type := Stdout | Stderr.

Inductive event : Type :=
| EPrint (f : stream) (text : string)
| EGet (url : string) (timeout : Z)
| EPost (url : string) (params : list (string * pyval)) (data : string)
        (headers : list (string * string)) (timeout : Z)
| ERead (path : string)
| EMkdir (p : Path) (parents exist_ok : bool)
| EOpenW (p : Path)
| EWrite (p : Path) (text : string).

(** How a computation ends: it returns, an exception leaves it, or
    [sys.exit] was called. *)
Inductive ending (A : Type) : Type :=
| Returns (a : A)
| Raises (e : exn)
| Exits (code : Z).
Arguments Returns {A} a.
Arguments Raises {A} e.
Arguments Exits {A} code.

Definition run (A : Type) : Type := (list event * ending A)%type.

Definition ret {A} (a : A) : run A := ([], Returns a).

Definition bind {A B} (m : run A) (k : A -> run B) : run B :=
  match m with
  | (t, Returns a) => let (t', r) := k a in ((t ++ t')%list, r)
  | (t, Raises e) => (t, Raises e)
  | (t, Exits c) => (t, Exits c)
  end.

Notation "x <- m ;; k" := (bind m (fun x => k))
  (at level 61, m at next level, right associativity).
Notation "m ;; k" := (bind m (fun _ => k))
  (at level 61, right associativity).

Definition emit (e : event) : run unit := ([e], Returns tt).
Definition raise {A} (e : exn) : run A := ([], Raises e).
Definition sys_exit {A} (code : Z) : run A := ([], Exits code).

Definition lift {A} (r : res A) : run A :=
  match r with
  | Ok a => ret a
  | Err e => raise e
  end.

(** [try: body  except C as e: handler e], where [catches] tells the
    exceptions of class [C].  [sys.exit] is not caught. *)
Definition try_except {A} (catches : exn -> bool) (body : run A)
           (handler : exn -> run A) : run A :=
  match body with
  | (t, Raises e) =>
      if catches e then let (t', r) := handler e in ((t ++ t')%list, r)
      else (t, Raises e)
  | _ => body
  end.

Fixpoint for_each {A} (l : list A) (body : A -> run unit) : run unit :=
  match l with
  | [] => ret tt
  | x :: l' => body x ;; for_each l' body
  end.

(** [print(s, file=f)] *)
Definition print (f : stream) (s : string) : run unit :=
  emit (EPrint f (s ++ nl)).

(** The exit status of the process. *)
Definition exit_code {A} (r : run A) : Z :=
  match snd r with
  | Returns _ => 0
  | Raises _ => 1
  | Exits c => c
  end.

(** ** The environment of a run *)

(** A [requests.Response]: its status and what [response.json()] does. *)
Record response : Type := mkResponse { status_code : Z; json : res pyval }.

(** What the file system answers to the calls that change it.  Each
    such call of the program is made at most once in a run, so the
    answers are given per call site: the file system may answer the two
    [mkdir] calls differently even for the same directory. *)
Record filesystem : Type := mkFs {
  mkdir_output_dir : Path -> res unit;        (* line 131: [output_dir.mkdir(
                                                 parents=True, exist_ok=True)] *)
  mkdir_parent : Path -> res unit;            (* line 146: [output_path.parent.mkdir(
                                                 parents=True, exist_ok=True)] *)
  open_write : Path -> res unit;              (* line 147: [open(output_path, "w")] *)
  write_text : Path -> string -> res unit     (* line 148: [f.write(text)] and the
                                                 closing of the file *)
}.

Record world : Type := mkWorld {
  requests_installed : bool;                  (* [import requests] succeeds *)
  script_file : string;                       (* [__file__] *)
  isfile : string -> bool;                    (* [os.path.isfile] *)
  http_get : string -> Z -> res response;     (* [requests.get(url, timeout)] *)
  read_text : string -> res string;           (* [open(path, "r").read()] *)
  http_post : string -> list (string * pyval) -> string
              -> list (string * string) -> Z -> res response;
                                              (* [requests.post(url, params, data,
                                                  headers, timeout)] *)
  fs : filesystem
}.

(** The namespace returned by [parser.parse_args()].  [divisor] and
    [output] are [None] when the flag is absent. *)
Record namespace : Type := mkArgs {
  input_file : string;
  divisor : option Z;
  no_pennies : bool;
  half_dollars : bool;
  output : option string;
  api : string
}.

Definition requests_get (w : world) (url : string) (timeout : Z) : run response :=
  emit (EGet url timeout) ;; lift (http_get w url timeout).

Definition requests_post (w : world) (url : string) (params : list (string * pyval))
           (data : string) (headers : list (string * string)) (timeout : Z)
  : run response :=
  emit (EPost url params data headers timeout) ;;
  lift (http_post w url params data headers timeout).

Definition open_read (w : world) (path : string) : run string :=
  emit (ERead path) ;; lift (read_text w path).

(** [d.get(key)] on a dict *)
Definition dict_get (d : list (string * pyval)) (key : string) : pyval :=
  match lookup key d with Some x => x | None => VNone end.

(** [d[key] = v] *)
Fixpoint dict_set (d : list (string * pyval)) (key : string) (v : pyval)
  : list (string * pyval) :=
  match d with
  | [] => [(key, v)]
  | (k, x) :: d' =>
      if String.eqb key k then (k, v) :: d' else (k, x) :: dict_set d' key v
  end.

Definition is_not_none (v : pyval) : bool :=
  match v with VNone => false | _ => true end.

(** ** The program *)

Definition DEFAULT_API_URL : string := "http://localhost:3000".

(** [check_api], lines 23-29 *)
Definition check_api (w : world) (api_url : string) : run bool :=
  try_except is_request_exception
    (response <- requests_get w (api_url ++ "/health") 5 ;;
     ret (status_code response =? 200))
    (fun _ => ret false).

(** [process_file], lines 32-58 *)
Definition process_file (w : world) (api_url file_path : string)
           (options : list (string * pyval)) : run pyval :=
  content <- open_read w file_path ;;
  let params := [] in
  params <- (if is_not_none (dict_get options "divisor") then
               d <- lift (py_getitem (VDict options) "divisor") ;;
               ret (dict_set params "divisor" d)
             else ret params) ;;
  let params := if truthy (dict_get options "no_pennies")
                then dict_set params "noPennies" (VStr "true") else params in
  let params := if truthy (dict_get options "half_dollars")
                then dict_set params "halfDollars" (VStr "true") else params in
  response <- requests_post w (api_url ++ "/process") params content
                            [("Content-Type", "text/plain")] 30 ;;
  if negb (status_code response =? 200) then
    body <- lift (json response) ;;
    error <- lift (py_get body "error" (VStr "Unknown error")) ;;
    raise (mkExn Exception ("API error: " ++ py_str error))
  else
    lift (json response).

(** The value of an optional command-line argument as a Python value. *)
Definition of_opt_int (o : option Z) : pyval :=
  match o with Some z => VInt z | None => VNone end.

(** Lines 129-134: the default output path. *)
Definition default_output_path (w : world) (args : namespace) : run str_or_path :=
  let script_dir := parent (Path_of_str (script_file w)) in
  let output_dir :=
    (script_dir / ".." / ".." / "output" / "clients" / "python")%path in
  emit (EMkdir output_dir true true) ;;
  lift (mkdir_output_dir (fs w) output_dir) ;;
  let input_basename := stem (Path_of_str (input_file args)) in
  ret (AsPath (output_dir / (input_basename ++ "-output.txt"))%path).

(** Lines 137-142: the lines of the output file. *)
Definition build_lines (result : pyval) : run (list pyval) :=
  let lines := [] in
  has_rand <- lift (py_get result "hasRandomization" VNone) ;;
  lines <- (if truthy has_rand then
              d <- lift (py_getitem result "divisor") ;;
              ret (lines ++ [VStr ("* randomization used - divisible by " ++ py_str d)])%list
            else
              d <- lift (py_getitem result "divisor") ;;
              ret (lines ++ [VStr ("* no entries divisible by " ++ py_str d)])%list) ;;
  results <- lift (py_getitem result "results") ;;
  items <- lift (py_iter results) ;;
  ret (lines ++ items)%list.

(** Lines 145-148: write the output file.  Each call is recorded when
    it is made and may then raise; nothing catches it. *)
Definition write_output (w : world) (output_path : Path) (lines : list pyval)
  : run unit :=
  emit (EMkdir (parent output_path) true true) ;;
  lift (mkdir_parent (fs w) (parent output_path)) ;;
  emit (EOpenW output_path) ;;
  lift (open_write (fs w) output_path) ;;
  text <- lift (py_join nl lines) ;;
  emit (EWrite output_path (text ++ nl)) ;;
  lift (write_text (fs w) output_path (text ++ nl)).

(** Lines 151-154: the head of the console output. *)
Definition print_summary (result : pyval) (output_path : Path) : run unit :=
  results <- lift (py_getitem result "results") ;;
  count <- lift (py_len results) ;;
  currency <- lift (py_getitem result "currency") ;;
  print Stdout ("Processed " ++ str_of_nat count ++ " transactions ("
                ++ py_str currency ++ ")") ;;
  print Stdout ("Output: " ++ Path_str output_path) ;;
  print Stdout EmptyString ;;
  print Stdout "--- Results ---".

(** Lines 157-163: the results on the console. *)
Definition print_results (result : pyval) : run unit :=
  has_rand <- lift (py_get result "hasRandomization" VNone) ;;
  (if truthy has_rand then
     d <- lift (py_getitem result "divisor") ;;
     print Stdout ("* randomization used - divisible by " ++ py_str d)
   else
     d <- lift (py_getitem result "divisor") ;;
     print Stdout ("* no entries divisible by " ++ py_str d)) ;;
  results <- lift (py_getitem result "results") ;;
  items <- lift (py_iter results) ;;
  for_each items (fun line => print Stdout (py_str line)).

(** Lines 126-134: the output path, a [str] from the flag or a [Path]
    built from the input file's name. *)
Definition resolve_output_path (w : world) (args : namespace) : run str_or_path :=
  match output args with
  | Some o => if truthy (VStr o) then ret (AsStr o) else default_output_path w args
  | None => default_output_path w args
  end.

(** Lines 125-163: what [main] does once [process_file] has returned. *)
Definition report (w : world) (args : namespace) (result : pyval) : run unit :=
  (* Determine output path *)
  output_path <- resolve_output_path w args ;;
  (* Build output content *)
  lines <- build_lines result ;;
  (* Write output file *)
  let output_path := Path_ctor output_path in
  write_output w output_path lines ;;
  (* Print summary *)
  print_summary result output_path ;;
  (* Print results *)
  print_results result.

(** The [options] dict of lines 112-116. *)
Definition build_options (args : namespace) : list (string * pyval) :=
  [ ("divisor", of_opt_int (divisor args));
    ("no_pennies", VBool (no_pennies args));
    ("half_dollars", VBool (half_dollars args)) ].

(** Lines 97-123: the checks and the call of [process_file]. *)
Definition obtain (w : world) (args : namespace) : run pyval :=
  (* Check input file exists *)
  (if negb (isfile w (input_file args)) then
     print Stderr ("Error: Input file not found: " ++ input_file args) ;;
     sys_exit 1
   else ret tt) ;;
  (* Check API availability *)
  available <- check_api w (api args) ;;
  (if negb available then
     print Stderr ("Error: API server not available at " ++ api args ++ ". "
                   ++ "Start it with: cd api && npm start") ;;
     sys_exit 1
   else ret tt) ;;
  (* Build options *)
  let options := build_options args in
  (* Process file *)
  try_except is_exception
    (process_file w (api args) (input_file args) options)
    (fun e => print Stderr ("Error: " ++ exn_str e) ;; sys_exit 1).

(** [main], lines 61-163, from the parsed arguments on. *)
Definition main (w : world) (args : namespace) : run unit :=
  result <- obtain w args ;;
  report w args result.

(** The module as a script: the guard around [import requests]
    (lines 13-17) comes before [main]. *)
Definition script (w : world) (args : namespace) : run unit :=
  (if negb (requests_installed w) then
     print Stdout "Error: requests library required. Install with: pip install requests" ;;
     sys_exit 1
   else ret tt) ;;
  main w args.

(** ** Reading a trace *)

(** The text written to a stream, in order. *)
Fixpoint printed (f : stream) (t : list event) : string :=
  match t with
  | [] => EmptyString
  | EPrint Stdout s :: t' =>
      match f with Stdout => s ++ printed f t' | Stderr => printed f t' end
  | EPrint Stderr s :: t' =>
      match f with Stderr => s ++ printed f t' | Stdout => printed f t' end
  | _ :: t' => printed f t'
  end.

(** The texts printed to standard output, one per [print]. *)
Fixpoint stdout_prints (t : list event) : list string :=
  match t with
  | [] => []
  | EPrint Stdout s :: t' => s :: stdout_prints t'
  | _ :: t' => stdout_prints t'
  end.

Definition is_post (e : event) : bool :=
  match e with EPost _ _ _ _ _ => true | _ => false end.
Definition is_http (e : event) : bool :=
  match e with EGet _ _ | EPost _ _ _ _ _ => true | _ => false end.
Definition is_fs_write (e : event) : bool :=
  match e with EMkdir _ _ _ | EOpenW _ | EWrite _ _ => true | _ => false end.
Definition is_file_write (e : event) : bool :=
  match e with EWrite _ _ => true | _ => false end.

(** ** A sample run *)

Definition sample_result : pyval :=
  VDict [ ("currency", VStr "USD"); ("divisor", VInt 3);
          ("hasRandomization", VBool true);
          ("results", VList [VStr "3 quarters,1 dime,3 pennies"; VStr "1 dollar"]) ].

(** A file system on which every call succeeds. *)
Definition writable_fs : filesystem :=
  mkFs (fun _ => Ok tt) (fun _ => Ok tt) (fun _ => Ok tt) (fun _ _ => Ok tt).

Definition sample_world : world :=
  mkWorld true "/repo/clients/python/cash_register.py"
    (fun p => String.eqb p "data/sample-usd.txt")
    (fun _ _ => Ok (mkResponse 200 (Ok (VDict [("status", VStr "ok")]))))
    (fun _ => Ok ("2.12,3.00" ++ nl ++ "1.00,2.00" ++ nl))
    (fun _ _ _ _ _ => Ok (mkResponse 200 (Ok sample_result)))
    writable_fs.

Definition sample_args : namespace :=
  mkArgs "data/sample-usd.txt" None false false None DEFAULT_API_URL.

(** ** What the specification says, in its own words *)

(** A well-formed server result: currency code, effective divisor,
    randomization flag, result lines. *)
Record server_result : Type := mkResult {
  sr_currency : string;
  sr_divisor : Z;
  sr_hasRandomization : bool;
  sr_results : list string
}.

(** The decoded JSON object is well formed when it has the four fields
    with these types; other fields are allowed. *)
Definition decode_result (v : pyval) : option server_result :=
  match v with
  | VDict d =>
      match lookup "currency" d, lookup "divisor" d,
            lookup "hasRandomization" d, lookup "results" d with
      | Some (VStr c), Some (VInt n), Some (VBool b), Some (VList l) =>
          match all_str 0 l with
          | inr ss => Some (mkResult c n b ss)
          | inl _ => None
          end
      | _, _, _, _ => None
      end
  | _ => None
  end.

(** The summary line as the specification words it. *)
Definition spec_summary_line (has_randomization : bool) (divisor_text : string)
  : string :=
  if has_randomization
  then "* randomization used - divisible by " ++ divisor_text
  else "* no entries divisible by " ++ divisor_text.

(** The content of the output file as the specification words it: the
    summary line, then the result lines, joined by newlines, with a
    terminating newline. *)
Definition spec_file_text (sr : server_result) : string :=
  String.concat nl
    (spec_summary_line (sr_hasRandomization sr) (str_of_Z (sr_divisor sr))
     :: sr_results sr) ++ nl.

(** The query parameters as the specification words them: each one
    present exactly when its option is set. *)
Definition spec_params (args : namespace) : list (string * pyval) :=
  (match divisor args with Some z => [("divisor", VInt z)] | None => [] end)
  ++ (if no_pennies args then [("noPennies", VStr "true")] else [])
  ++ (if half_dollars args then [("halfDollars", VStr "true")] else []).

(** The health check of a run answers 200. *)
Definition health_ok (w : world) (args : namespace) : bool :=
  match http_get w (api args ++ "/health") 5 with
  | Ok r => status_code r =? 200
  | Err _ => false
  end.

(** The health check of a run fails: a status other than 200, or a
    [requests.RequestException]. *)
Definition health_fails (w : world) (args : namespace) : bool :=
  match http_get w (api args ++ "/health") 5 with
  | Ok r => negb (status_code r =? 200)
  | Err e => is_request_exception e
  end.

(** The default output directory and path of lines 129-134. *)
Definition default_output_dir (w : world) : Path :=
  let script_dir := parent (Path_of_str (script_file w)) in
  mkPath (root script_dir)
         (parts script_dir ++ [".."; ".."; "output"; "clients"; "python"]).

Definition default_output_file (w : world) (args : namespace) : Path :=
  mkPath (root (default_output_dir w))
         (parts (default_output_dir w)
          ++ [stem (Path_of_str (input_file args)) ++ "-output.txt"]).

(** The value of [--output] that [main] takes up: the flag's value unless
    it is absent or empty. *)
Definition effective_output (args : namespace) : option string :=
  match output args with
  | Some o => if String.eqb o EmptyString then None else Some o
  | None => None
  end.

(** The path of the output file of a run. *)
Definition output_file (w : world) (args : namespace) : Path :=
  match effective_output args with
  | Some o => Path_of_str o
  | None => default_output_file w args
  end.

(** The effects of choosing the output path. *)
Definition output_dir_events (w : world) (args : namespace) : list event :=
  match effective_output args with
  | Some _ => []
  | None => [EMkdir (default_output_dir w) true true]
  end.

(** The effects of lines 125-163 when nothing raises, for the summary
    line, the result lines, the count and the currency text of the
    result. *)
Definition report_trace (w : world) (args : namespace) (summary : string)
           (lines : list string) (count : nat) (currency : string) : list event :=
  let p := output_file w args in
  (output_dir_events w args
   ++ [ EMkdir (parent p) true true;
        EOpenW p;
        EWrite p (String.concat nl (summary :: lines) ++ nl);
        EPrint Stdout (("Processed " ++ str_of_nat count ++ " transactions ("
                        ++ currency ++ ")") ++ nl);
        EPrint Stdout (("Output: " ++ Path_str p) ++ nl);
        EPrint Stdout nl;
        EPrint Stdout ("--- Results ---" ++ nl);
        EPrint Stdout (summary ++ nl) ]
   ++ map (fun l => EPrint Stdout (l ++ nl)) lines)%list.

(** What lines 125-163 need of a decoded result so that nothing raises,
    and what they read from it. *)
Definition reportable (result : pyval) (summary : string) (lines : list string)
           (count : nat) (currency : string) : Prop :=
  exists d dv rs cur,
    result = VDict d /\
    lookup "divisor" d = Some dv /\
    lookup "results" d = Some rs /\
    py_iter rs = Ok (map VStr lines) /\
    py_len rs = Ok count /\
    lookup "currency" d = Some cur /\
    summary = spec_summary_line (truthy (dict_get d "hasRandomization")) (py_str dv) /\
    currency = py_str cur.

(** The run reached the server and [process_file] returned [result]. *)
Definition served (w : world) (args : namespace) (result : pyval) : Prop :=
  snd (obtain w args) = Returns result.

(** The [error] field of a response body, when the body is a JSON object
    that has one. *)
Definition error_field (r : response) : option pyval :=
  match json r with
  | Ok (VDict d) => lookup "error" d
  | _ => None
  end.

(** The effects on the file system that a run with output file [p] may
    have, apart from those of choosing the path. *)
Definition writes_only (p : Path) (e : event) : Prop :=
  is_fs_write e = true ->
  e = EMkdir (parent p) true true \/ e = EOpenW p \/ exists text, e = EWrite p text.

(** An effect that is neither an HTTP request nor a change of the file
    system. *)
Definition quiet (e : event) : Prop := is_http e = false /\ is_fs_write e = false.

(** ** More sample runs *)

(** A gateway in front of the server answers 502 with an HTML page:
    [response.json()] raises. *)
Definition gateway_world : world :=
  mkWorld true "/repo/clients/python/cash_register.py"
    (fun p => String.eqb p "data/sample-usd.txt")
    (fun _ _ => Ok (mkResponse 200 (Ok (VDict [("status", VStr "ok")]))))
    (fun _ => Ok ("2.12,3.00" ++ nl))
    (fun _ _ _ _ _ =>
       Ok (mkResponse 502
             (Err (mkExn ValueError "Expecting value: line 1 column 1 (char 0)"))))
    writable_fs.

(** The server answers 400 with an error object. *)
Definition rejecting_world : world :=
  mkWorld true "/repo/clients/python/cash_register.py"
    (fun p => String.eqb p "data/sample-usd.txt")
    (fun _ _ => Ok (mkResponse 200 (Ok (VDict [("status", VStr "ok")]))))
    (fun _ => Ok ("2.12,3.00" ++ nl))
    (fun _ _ _ _ _ =>
       Ok (mkResponse 400 (Ok (VDict [("error", VStr "Invalid input format")]))))
    writable_fs.

(** No server is listening. *)
Definition offline_world : world :=
  mkWorld true "/repo/clients/python/cash_register.py"
    (fun p => String.eqb p "data/sample-usd.txt")
    (fun _ _ => Err (mkExn RequestException "Connection refused"))
    (fun _ => Ok ("2.12,3.00" ++ nl))
    (fun _ _ _ _ _ => Err (mkExn RequestException "Connection refused"))
    writable_fs.

(** [--output] given with an empty value, as in [--output=]. *)
Definition empty_output_args : namespace :=
  mkArgs "data/sample-usd.txt" None false false (Some EmptyString) DEFAULT_API_URL.

(** [--output out/result.txt --divisor 5 --no-pennies] *)
Definition custom_args : namespace :=
  mkArgs "data/sample-usd.txt" (Some 5) true false (Some "out/result.txt")
         DEFAULT_API_URL.

(** The input file is missing. *)
Definition missing_args : namespace :=
  mkArgs "data/missing.txt" None false false None DEFAULT_API_URL.

(** ** Runs that go wrong after the submission *)

(** A world like [sample_world] whose server answers 200 with [result]. *)
Definition answering_world (result : pyval) : world :=
  mkWorld true "/repo/clients/python/cash_register.py"
    (fun p => String.eqb p "data/sample-usd.txt")
    (fun _ _ => Ok (mkResponse 200 (Ok (VDict [("status", VStr "ok")]))))
    (fun _ => Ok ("2.12,3.00" ++ nl))
    (fun _ _ _ _ _ => Ok (mkResponse 200 (Ok result)))
    writable_fs.

(** The input file is there but cannot be read. *)
Definition unreadable_world : world :=
  mkWorld true "/repo/clients/python/cash_register.py"
    (fun p => String.eqb p "data/sample-usd.txt")
    (fun _ _ => Ok (mkResponse 200 (Ok (VDict [("status", VStr "ok")]))))
    (fun _ => Err (mkExn OSError "[Errno 13] Permission denied: 'data/sample-usd.txt'"))
    (fun _ _ _ _ _ => Ok (mkResponse 200 (Ok sample_result)))
    writable_fs.

(** The health check fails with an exception that is no
    [requests.RequestException]. *)
Definition broken_world : world :=
  mkWorld true "/repo/clients/python/cash_register.py"
    (fun p => String.eqb p "data/sample-usd.txt")
    (fun _ _ => Err (mkExn TypeError "unexpected"))
    (fun _ => Ok ("2.12,3.00" ++ nl))
    (fun _ _ _ _ _ => Ok (mkResponse 200 (Ok sample_result)))
    writable_fs.

(** A result with a number among its result lines. *)
Definition mixed_result : pyval :=
  VDict [ ("currency", VStr "USD"); ("divisor", VInt 3);
          ("hasRandomization", VBool false);
          ("results", VList [VStr "1 dollar"; VInt 7]) ].

(** A result without a divisor. *)
Definition no_divisor_result : pyval :=
  VDict [ ("currency", VStr "USD"); ("hasRandomization", VBool false);
          ("results", VList [VStr "1 dollar"]) ].

(** A result without a currency. *)
Definition no_currency_result : pyval :=
  VDict [ ("divisor", VInt 3); ("hasRandomization", VBool false);
          ("results", VList [VStr "1 dollar"]) ].

(** A result whose flag is the string "false" and whose result lines
    come as one string. *)
Definition loose_result : pyval :=
  VDict [ ("currency", VStr "EUR"); ("divisor", VStr "3");
          ("hasRandomization", VStr "false"); ("results", VStr "ab") ].

(** The one-character strings of a string, as [iter(s)] yields them. *)
Fixpoint characters (s : string) : list string :=
  match s with
  | EmptyString => []
  | String c s' => String c EmptyString :: characters s'
  end.

(** A path as [Path(s)] builds them: no root other than none, one slash
    or two, and components that are not empty, not a single dot, and
    without a slash. *)
Definition plain_component (x : string) : bool :=
  negb (String.eqb x EmptyString) && negb (String.eqb x ".")
  && negb (string_mem slash x).

Definition normal (p : Path) : bool :=
  (String.eqb (root p) EmptyString || String.eqb (root p) "/"
   || String.eqb (root p) "//")
  && forallb plain_component (parts p).

(** The query parameters [process_file] builds from any [options] dict. *)
Definition params_of (options : list (string * pyval)) : list (string * pyval) :=
  (if is_not_none (dict_get options "divisor")
   then [("divisor", dict_get options "divisor")] else [])
  ++ (if truthy (dict_get options "no_pennies")
      then [("noPennies", VStr "true")] else [])
  ++ (if truthy (dict_get options "half_dollars")
      then [("halfDollars", VStr "true")] else []).

(** What a response makes [process_file] end with. *)
Definition process_ending (resp : response) : ending pyval :=
  if status_code resp =? 200 then
    match json resp with
    | Ok v => Returns v
    | Err e => Raises e
    end
  else
    match json resp with
    | Ok body =>
        match py_get body "error" (VStr "Unknown error") with
        | Ok error => Raises (mkExn Exception ("API error: " ++ py_str error))
        | Err e => Raises e
        end
    | Err e => Raises e
    end.

(** The lines [main] prints on standard error before [sys.exit(1)]. *)
Definition not_found_line (args : namespace) : event :=
  EPrint Stderr (("Error: Input file not found: " ++ input_file args) ++ nl).

Definition unavailable_line (args : namespace) : event :=
  EPrint Stderr (("Error: API server not available at " ++ api args ++ ". "
                  ++ "Start it with: cd api && npm start") ++ nl).

(** ** The file system's answers *)

Definition is_ok {A : Type} (r : res A) : bool :=
  match r with Ok _ => true | Err _ => false end.

(** The choice of the output path raises nothing: [--output] is taken
    up, or the default directory can be created. *)
Definition dir_ok (w : world) (args : namespace) : bool :=
  match effective_output args with
  | Some _ => true
  | None => is_ok (mkdir_output_dir (fs w) (default_output_dir w))
  end.

(** The output file can be written with [text]: its parent directory
    can be created, the file opened, and the text written. *)
Definition file_ok (w : world) (args : namespace) (text : string) : bool :=
  let p := output_file w args in
  is_ok (mkdir_parent (fs w) (parent p))
  && is_ok (open_write (fs w) p)
  && is_ok (write_text (fs w) p text).

(** The text after "Error: " when the POST is answered with a status
    other than 200. *)
Definition failure_message (resp : response) : string :=
  match json resp with
  | Ok body =>
      match py_get body "error" (VStr "Unknown error") with
      | Ok error => "API error: " ++ py_str error
      | Err e => exn_str e
      end
  | Err e => exn_str e
  end.

(** [--output out], where [out] is a directory: [open] raises. *)
Definition directory_fs : filesystem :=
  mkFs (fun _ => Ok tt) (fun _ => Ok tt)
       (fun p => if String.eqb (Path_str p) "out"
                 then Err (mkExn OSError "[Errno 21] Is a directory: 'out'")
                 else Ok tt)
       (fun _ _ => Ok tt).

Definition directory_world : world :=
  mkWorld true "/repo/clients/python/cash_register.py"
    (fun p => String.eqb p "data/sample-usd.txt")
    (fun _ _ => Ok (mkResponse 200 (Ok (VDict [("status", VStr "ok")]))))
    (fun _ => Ok ("2.12,3.00" ++ nl ++ "1.00,2.00" ++ nl))
    (fun _ _ _ _ _ => Ok (mkResponse 200 (Ok sample_result)))
    directory_fs.

Definition directory_args : namespace :=
  mkArgs "data/sample-usd.txt" None false false (Some "out") DEFAULT_API_URL.

(** The tree of the script is read-only: the default directory cannot
    be created. *)
Definition read_only_fs : filesystem :=
  mkFs (fun _ => Err (mkExn OSError "[Errno 30] Read-only file system: '/repo/output'"))
       (fun _ => Err (mkExn OSError "[Errno 30] Read-only file system: '/repo/output'"))
       (fun _ => Err (mkExn OSError "[Errno 30] Read-only file system"))
       (fun _ _ => Err (mkExn OSError "[Errno 30] Read-only file system")).

Definition read_only_world (result : pyval) : world :=
  mkWorld true "/repo/clients/python/cash_register.py"
    (fun p => String.eqb p "data/sample-usd.txt")
    (fun _ _ => Ok (mkResponse 200 (Ok (VDict [("status", VStr "ok")]))))
    (fun _ => Ok ("2.12,3.00" ++ nl))
    (fun _ _ _ _ _ => Ok (mkResponse 200 (Ok result)))
    read_only_fs.

(** * Theorems *)

(** ** Sample evaluations *)

Example py_str_negative : py_str (VInt (-5)) = "-5".
Proof. reflexivity. Qed.

Example py_repr_nested :
  py_repr (VDict [("a'b", VList [VInt 0; VBool true; VNone])])
  = "{" ++ String dquote ("a'b" ++ String dquote ": [0, True, None]}").
Proof. vm_compute. reflexivity. Qed.

Example get_on_a_list :
  py_get (VList []) "error" (VStr "Unknown error")
  = Err (mkExn AttributeError "'list' object has no attribute 'get'").
Proof. reflexivity. Qed.

Example join_rejects_a_number :
  py_join nl [VStr "a"; VInt 1]
  = Err (mkExn TypeError "sequence item 1: expected str instance, int found").
Proof. reflexivity. Qed.

Example path_parsing :
  map (fun s => Path_str (Path_of_str s))
      ["///a/./b/../c/"; "//a"; EmptyString; "./out//x.txt"]
  = ["/a/b/../c"; "//a"; "."; "out/x.txt"].
Proof. reflexivity. Qed.

Example path_stems :
  map (fun s => stem (Path_of_str s))
      ["a/b.tar.gz"; ".bashrc"; "x."; ".."; "data/sample-usd.txt"]
  = ["b.tar"; ".bashrc"; "x."; ".."; "sample-usd"].
Proof. reflexivity. Qed.

Example sample_console :
  printed Stdout (fst (main sample_world sample_args))
  = "Processed 2 transactions (USD)" ++ nl
    ++ "Output: /repo/clients/python/../../output/clients/python/sample-usd-output.txt"
    ++ nl ++ nl
    ++ "--- Results ---" ++ nl
    ++ "* randomization used - divisible by 3" ++ nl
    ++ "3 quarters,1 dime,3 pennies" ++ nl
    ++ "1 dollar" ++ nl.
Proof. vm_compute. reflexivity. Qed.

Example rejected_run :
  main rejecting_world sample_args
  = ([ EGet "http://localhost:3000/health" 5;
       ERead "data/sample-usd.txt";
       EPost "http://localhost:3000/process" [] ("2.12,3.00" ++ nl)
             [("Content-Type", "text/plain")] 30;
       EPrint Stderr ("Error: API error: Invalid input format" ++ nl) ],
     Exits 1).
Proof. vm_compute. reflexivity. Qed.

(** ** Strings *)

Lemma append_nil_r (s : string) : s ++ EmptyString = s.
Proof. induction s; cbn; [reflexivity | now rewrite IHs]. Qed.

Lemma append_assoc (a b c : string) : (a ++ b) ++ c = a ++ b ++ c.
Proof. induction a; cbn; [reflexivity | now rewrite IHa]. Qed.

Lemma string_mem_append (c : ascii) (a b : string) :
  string_mem c (a ++ b) = string_mem c a || string_mem c b.
Proof.
  induction a as [|x a IH]; cbn; [reflexivity|].
  rewrite IH. now rewrite orb_assoc.
Qed.

Lemma string_mem_substring (c : ascii) (s : string) (n : nat) :
  string_mem c s = false -> string_mem c (substring 0 n s) = false.
Proof.
  revert n. induction s as [|x s IH]; intros [|n] H; cbn in *; try reflexivity.
  apply orb_false_iff in H as [Hx Hs]. rewrite Hx. cbn. now apply IH.
Qed.

(** ** Paths *)

Lemma split_slash_no_slash (s : string) :
  Forall (fun x => string_mem slash x = false) (split_slash s).
Proof.
  induction s as [|c s IH]; cbn [split_slash].
  - repeat constructor.
  - destruct (Ascii.eqb c slash) eqn:Hc.
    + constructor; [reflexivity | exact IH].
    + destruct (split_slash s) as [|x xs].
      * constructor; [|constructor]. cbn [string_mem].
        rewrite Ascii.eqb_sym, Hc. reflexivity.
      * inversion IH; subst. constructor; [|assumption].
        cbn [string_mem]. rewrite Ascii.eqb_sym, Hc. assumption.
Qed.

Lemma split_slash_simple (s : string) :
  string_mem slash s = false -> split_slash s = [s].
Proof.
  induction s as [|c s IH]; cbn [split_slash string_mem]; [reflexivity|].
  intros H. apply orb_false_iff in H as [Hc Hs].
  rewrite Ascii.eqb_sym, Hc. now rewrite (IH Hs).
Qed.

Lemma parse_parts_no_slash (rel : string) :
  Forall (fun x => string_mem slash x = false) (parse_parts rel).
Proof.
  unfold parse_parts. apply Forall_forall. intros x Hx.
  apply filter_In in Hx as [Hx _].
  pose proof (split_slash_no_slash rel) as H.
  rewrite Forall_forall in H. now apply H.
Qed.

Lemma Path_of_str_no_slash (s : string) :
  Forall (fun x => string_mem slash x = false) (parts (Path_of_str s)).
Proof.
  unfold Path_of_str. destruct (splitroot s) as [r rel]. cbn.
  apply parse_parts_no_slash.
Qed.

Lemma last_Forall {A} (P : A -> Prop) (l : list A) (d : A) :
  P d -> Forall P l -> P (last l d).
Proof.
  intros Hd H. induction H as [|x l Hx Hl IH]; cbn; [assumption|].
  destruct l; [assumption | exact IH].
Qed.

Lemma stem_no_slash (s : string) :
  string_mem slash (stem (Path_of_str s)) = false.
Proof.
  assert (Hn : string_mem slash (name (Path_of_str s)) = false).
  { unfold name.
    apply (last_Forall (fun x => string_mem slash x = false));
      [reflexivity | apply Path_of_str_no_slash]. }
  unfold stem. destruct (rfind_dot _) as [i|]; [|assumption].
  destruct (_ && _); [|assumption].
  now apply string_mem_substring.
Qed.

(** Joining a path with one plain component appends it. *)
Lemma joinpath_simple (p : Path) (seg : string) :
  string_mem slash seg = false ->
  seg <> EmptyString -> seg <> "." ->
  joinpath p seg = mkPath (root p) (parts p ++ [seg]).
Proof.
  intros Hs Hne Hdot. unfold joinpath.
  destruct seg as [|c seg']; [congruence|].
  cbn [string_mem] in Hs. apply orb_false_iff in Hs as [Hc Hs'].
  rewrite Ascii.eqb_sym, Hc.
  unfold parse_parts. rewrite split_slash_simple.
  2:{ cbn [string_mem]. rewrite Hc, Hs'. reflexivity. }
  cbn [filter].
  replace (String.eqb (String c seg') EmptyString) with false by reflexivity.
  destruct (String.eqb (String c seg') ".") eqn:E.
  - apply String.eqb_eq in E. congruence.
  - reflexivity.
Qed.

Lemma output_name_simple (st : string) :
  string_mem slash st = false ->
  let n := st ++ "-output.txt" in
  string_mem slash n = false /\ n <> EmptyString /\ n <> ".".
Proof.
  intros H n. subst n. repeat split.
  - rewrite string_mem_append, H. reflexivity.
  - destruct st; discriminate.
  - destruct st as [|c [|c' st]]; discriminate.
Qed.

(** Lines 129-134 computed: the creation of the default directory is
    asked for, and when it succeeds the default file is returned. *)
Lemma default_output_path_eq (w : world) (args : namespace) :
  default_output_path w args
  = ([EMkdir (default_output_dir w) true true],
     match mkdir_output_dir (fs w) (default_output_dir w) with
     | Ok _ => Returns (AsPath (default_output_file w args))
     | Err e => Raises e
     end).
Proof.
  unfold default_output_path, default_output_file.
  set (sd := parent (Path_of_str (script_file w))).
  assert (Hdir : (sd / ".." / ".." / "output" / "clients" / "python")%path
                 = default_output_dir w).
  { unfold default_output_dir. fold sd. cbn. repeat rewrite <- app_assoc. reflexivity. }
  rewrite Hdir.
  destruct (output_name_simple (stem (Path_of_str (input_file args)))
              (stem_no_slash _)) as (H1 & H2 & H3).
  rewrite (joinpath_simple _ _ H1 H2 H3).
  unfold emit. destruct (mkdir_output_dir (fs w) (default_output_dir w)); reflexivity.
Qed.

Lemma parent_default_output_file (w : world) (args : namespace) :
  parent (default_output_file w args) = default_output_dir w.
Proof.
  unfold parent, default_output_file. cbn [parts root].
  destruct (parts (default_output_dir w) ++ [_])%list eqn:E.
  - now apply app_eq_nil in E as [_ E].
  - rewrite <- E, removelast_last. now destruct (default_output_dir w).
Qed.

(** ** The trace monad *)

Lemma bind_returns {A B} (t : list event) (a : A) (k : A -> run B) :
  bind (t, Returns a) k = ((t ++ fst (k a))%list, snd (k a)).
Proof. unfold bind. destruct (k a); reflexivity. Qed.

Lemma for_each_print (items : list pyval) :
  for_each items (fun line => print Stdout (py_str line))
  = (map (fun v => EPrint Stdout (py_str v ++ nl)) items, Returns tt).
Proof.
  induction items as [|v items IH]; cbn [for_each map]; [reflexivity|].
  rewrite IH. reflexivity.
Qed.

(** ** Lists of strings *)

Lemma all_str_inr (l : list pyval) (i : nat) (ss : list string) :
  all_str i l = inr ss -> l = map VStr ss.
Proof.
  revert i ss. induction l as [|v l IH]; intros i ss H; cbn in H.
  - now injection H as <-.
  - destruct v; try discriminate.
    destruct (all_str (S i) l) as [bad|ss'] eqn:E; [discriminate|].
    injection H as <-. cbn. now rewrite (IH _ _ E).
Qed.

Lemma all_str_map (ss : list string) (i : nat) :
  all_str i (map VStr ss) = inr ss.
Proof.
  revert i. induction ss as [|s ss IH]; intros i; cbn; [reflexivity|].
  now rewrite IH.
Qed.

Lemma map_py_str (ss : list string) :
  map (fun v => EPrint Stdout (py_str v ++ nl)) (map VStr ss)
  = map (fun l => EPrint Stdout (l ++ nl)) ss.
Proof. rewrite map_map. reflexivity. Qed.

(** ** The blocks of [main] *)

Lemma effective_output_truthy (args : namespace) :
  effective_output args
  = match output args with
    | Some o => if truthy (VStr o) then Some o else None
    | None => None
    end.
Proof.
  unfold effective_output. destruct (output args) as [o|]; [|reflexivity].
  cbn. now destruct (String.eqb o EmptyString).
Qed.

Lemma is_ok_unit (r : res unit) : is_ok r = true -> r = Ok tt.
Proof. destruct r as [[]|e]; [reflexivity | discriminate]. Qed.

(** Lines 126-134 computed: the path is chosen, unless the default
    directory cannot be created. *)
Lemma resolve_output_path_cases (w : world) (args : namespace) :
  (exists x,
      resolve_output_path w args = (output_dir_events w args, Returns x) /\
      Path_ctor x = output_file w args /\
      dir_ok w args = true)
  \/ (exists e,
         resolve_output_path w args = (output_dir_events w args, Raises e) /\
         dir_ok w args = false /\
         effective_output args = None /\
         mkdir_output_dir (fs w) (default_output_dir w) = Err e).
Proof.
  unfold resolve_output_path, output_dir_events, output_file, dir_ok.
  rewrite effective_output_truthy.
  assert (H : (exists x,
                  default_output_path w args
                  = ([EMkdir (default_output_dir w) true true], Returns x) /\
                  Path_ctor x = default_output_file w args /\
                  is_ok (mkdir_output_dir (fs w) (default_output_dir w)) = true)
              \/ (exists e,
                     default_output_path w args
                     = ([EMkdir (default_output_dir w) true true], Raises e) /\
                     is_ok (mkdir_output_dir (fs w) (default_output_dir w)) = false /\
                     mkdir_output_dir (fs w) (default_output_dir w) = Err e)).
  { rewrite default_output_path_eq.
    destruct (mkdir_output_dir (fs w) (default_output_dir w)) as [u|e].
    - left. eexists. auto.
    - right. exists e. auto. }
  destruct (output args) as [o|].
  - destruct (truthy (VStr o)).
    + left. now exists (AsStr o).
    + destruct H as [(x & E & Hx & Hk)|(e & E & Hk & He)].
      * left. exists x. auto.
      * right. exists e. auto.
  - destruct H as [(x & E & Hx & Hk)|(e & E & Hk & He)].
    + left. exists x. auto.
    + right. exists e. auto.
Qed.

Lemma build_lines_eq d dv rs items :
  lookup "divisor" d = Some dv ->
  lookup "results" d = Some rs ->
  py_iter rs = Ok items ->
  build_lines (VDict d)
  = ([], Returns (VStr (spec_summary_line (truthy (dict_get d "hasRandomization"))
                                          (py_str dv)) :: items)).
Proof.
  intros Hd Hr Hi. unfold build_lines, spec_summary_line, dict_get.
  cbn [py_get py_getitem lift]. rewrite Hd, Hr.
  destruct (lookup "hasRandomization" d) as [h|]; cbn;
    [destruct (truthy h)|]; cbn; rewrite Hi; reflexivity.
Qed.

Lemma print_results_eq d dv rs items :
  lookup "divisor" d = Some dv ->
  lookup "results" d = Some rs ->
  py_iter rs = Ok items ->
  print_results (VDict d)
  = (EPrint Stdout (spec_summary_line (truthy (dict_get d "hasRandomization"))
                                      (py_str dv) ++ nl)
     :: map (fun v => EPrint Stdout (py_str v ++ nl)) items, Returns tt).
Proof.
  intros Hd Hr Hi. unfold print_results, spec_summary_line, dict_get.
  cbn [py_get py_getitem lift]. rewrite Hd, Hr.
  destruct (lookup "hasRandomization" d) as [h|]; cbn;
    [destruct (truthy h)|]; cbn; rewrite Hi; cbn; rewrite for_each_print;
    reflexivity.
Qed.

(** Lines 145-148 computed. *)
Lemma write_output_cases (w : world) (p : Path) (lines : list pyval) :
  write_output w p lines
  = match mkdir_parent (fs w) (parent p) with
    | Err e => ([EMkdir (parent p) true true], Raises e)
    | Ok _ =>
        match open_write (fs w) p with
        | Err e => ([EMkdir (parent p) true true; EOpenW p], Raises e)
        | Ok _ =>
            match py_join nl lines with
            | Err e => ([EMkdir (parent p) true true; EOpenW p], Raises e)
            | Ok text =>
                ([EMkdir (parent p) true true; EOpenW p; EWrite p (text ++ nl)],
                 match write_text (fs w) p (text ++ nl) with
                 | Ok _ => Returns tt
                 | Err e => Raises e
                 end)
            end
        end
    end.
Proof.
  unfold write_output, emit.
  destruct (mkdir_parent (fs w) (parent p)); [|reflexivity].
  destruct (open_write (fs w) p); [|reflexivity].
  destruct (py_join nl lines) as [text|e]; [|reflexivity].
  cbn. destruct (write_text (fs w) p (text ++ nl)) as [[]|e]; reflexivity.
Qed.

Lemma join_strings (s : string) (ss : list string) :
  py_join nl (VStr s :: map VStr ss) = Ok (String.concat nl (s :: ss)).
Proof.
  unfold py_join.
  change (VStr s :: map VStr ss) with (map VStr (s :: ss)).
  now rewrite all_str_map.
Qed.

Lemma file_ok_split (w : world) (args : namespace) (text : string) :
  file_ok w args text = true ->
  mkdir_parent (fs w) (parent (output_file w args)) = Ok tt /\
  open_write (fs w) (output_file w args) = Ok tt /\
  write_text (fs w) (output_file w args) text = Ok tt.
Proof.
  unfold file_ok. intros H.
  apply andb_true_iff in H as [H H3]. apply andb_true_iff in H as [H1 H2].
  auto using is_ok_unit.
Qed.

Lemma write_output_eq w args s ss :
  file_ok w args (String.concat nl (s :: ss) ++ nl) = true ->
  write_output w (output_file w args) (VStr s :: map VStr ss)
  = ([EMkdir (parent (output_file w args)) true true; EOpenW (output_file w args);
      EWrite (output_file w args) (String.concat nl (s :: ss) ++ nl)], Returns tt).
Proof.
  intros H. apply file_ok_split in H as (H1 & H2 & H3).
  rewrite write_output_cases, H1, H2, join_strings, H3. reflexivity.
Qed.

Lemma print_summary_eq d rs cur n p :
  lookup "results" d = Some rs ->
  py_len rs = Ok n ->
  lookup "currency" d = Some cur ->
  print_summary (VDict d) p
  = ([EPrint Stdout (("Processed " ++ str_of_nat n ++ " transactions ("
                      ++ py_str cur ++ ")") ++ nl);
      EPrint Stdout (("Output: " ++ Path_str p) ++ nl);
      EPrint Stdout nl;
      EPrint Stdout ("--- Results ---" ++ nl)], Returns tt).
Proof.
  intros Hr Hn Hc. unfold print_summary. cbn [py_getitem lift].
  rewrite Hr. cbn. rewrite Hn. cbn. rewrite Hc. reflexivity.
Qed.

(** Forward: a reportable result is reported without an exception when
    the file system lets the program write. *)
Lemma report_reportable w args result summary lines count currency :
  reportable result summary lines count currency ->
  dir_ok w args = true ->
  file_ok w args (String.concat nl (summary :: lines) ++ nl) = true ->
  report w args result
  = (report_trace w args summary lines count currency, Returns tt).
Proof.
  intros (d & dv & rs & cur & -> & Hd & Hr & Hi & Hn & Hc & -> & ->) Hdir Hfile.
  unfold report, report_trace.
  destruct (resolve_output_path_cases w args)
    as [(x & -> & Hx & _)|(e & _ & Hk & _)]; [|congruence].
  rewrite bind_returns.
  rewrite (build_lines_eq _ _ _ _ Hd Hr Hi).
  rewrite bind_returns. cbn [fst snd app].
  rewrite Hx, (write_output_eq _ _ _ _ Hfile).
  rewrite bind_returns.
  rewrite (print_summary_eq _ _ _ _ _ Hr Hn Hc).
  rewrite bind_returns.
  rewrite (print_results_eq _ _ _ _ Hd Hr Hi), map_py_str.
  cbn [fst snd app]. reflexivity.
Qed.

(** Inversion of a computation that returned. *)
Lemma bind_snd_returns {A B} (m : run A) (k : A -> run B) (b : B) :
  snd (bind m k) = Returns b ->
  exists a, snd m = Returns a /\ snd (k a) = Returns b.
Proof.
  destruct m as [t [a|e|c]]; cbn; try discriminate.
  destruct (k a) as [t' r] eqn:E. cbn. intros ->. exists a. now rewrite E.
Qed.

Lemma lift_snd_returns {A} (r : res A) (a : A) :
  snd (lift r) = Returns a -> r = Ok a.
Proof. destruct r; cbn; congruence. Qed.

Ltac invert_run H :=
  repeat match type of H with
    | snd (bind _ _) = Returns _ =>
        let a := fresh "a" in
        let Ha := fresh "Ha" in
        apply bind_snd_returns in H as (a & Ha & H);
        try (apply lift_snd_returns in Ha)
    end;
  repeat match goal with u : unit |- _ => destruct u end.

Lemma py_get_ok v key default x :
  py_get v key default = Ok x -> exists d, v = VDict d.
Proof. destruct v; cbn; try discriminate. eauto. Qed.

Lemma py_getitem_ok d key x :
  py_getitem (VDict d) key = Ok x -> lookup key d = Some x.
Proof. cbn. destruct (lookup key d); congruence. Qed.

Lemma build_lines_returns result lines :
  snd (build_lines result) = Returns lines ->
  exists d dv rs items,
    result = VDict d /\
    lookup "divisor" d = Some dv /\
    lookup "results" d = Some rs /\
    py_iter rs = Ok items /\
    lines = VStr (spec_summary_line (truthy (dict_get d "hasRandomization"))
                                    (py_str dv)) :: items.
Proof.
  intros H. unfold build_lines in H. invert_run H.
  destruct (py_get_ok _ _ _ _ Ha) as [d ->].
  apply py_getitem_ok in Ha1.
  cbn in Ha. injection Ha as <-. fold (dict_get d "hasRandomization") in Ha0.
  exists d. unfold spec_summary_line.
  destruct (truthy (dict_get d "hasRandomization")); invert_run Ha0;
    apply py_getitem_ok in Ha; cbn in Ha0, H; injection Ha0 as <-;
    injection H as <-; eauto 10.
Qed.

Lemma write_output_returns w p lines :
  snd (write_output w p lines) = Returns tt ->
  exists ss,
    all_str 0 lines = inr ss /\
    is_ok (mkdir_parent (fs w) (parent p)) = true /\
    is_ok (open_write (fs w) p) = true /\
    is_ok (write_text (fs w) p (String.concat nl ss ++ nl)) = true.
Proof.
  rewrite write_output_cases.
  destruct (mkdir_parent (fs w) (parent p)); [|discriminate].
  destruct (open_write (fs w) p); [|discriminate].
  unfold py_join.
  destruct (all_str 0 lines) as [[i v]|ss]; [discriminate|].
  cbn [snd]. destruct (write_text (fs w) p (String.concat nl ss ++ nl)) eqn:E;
    [|discriminate].
  intros _. exists ss. repeat split. now rewrite E.
Qed.

Lemma print_summary_returns d p :
  snd (print_summary (VDict d) p) = Returns tt ->
  exists rs n cur,
    lookup "results" d = Some rs /\ py_len rs = Ok n /\
    lookup "currency" d = Some cur.
Proof.
  intros H. unfold print_summary in H. invert_run H.
  apply py_getitem_ok in Ha, Ha1. eauto 10.
Qed.

(** Backward: when lines 125-163 end without an exception, the result
    was reportable. *)
Lemma report_returns w args result :
  snd (report w args result) = Returns tt ->
  exists summary lines count currency,
    reportable result summary lines count currency.
Proof.
  intros H. unfold report in H. invert_run H.
  apply build_lines_returns in Ha0 as (d & dv & rs & items & -> & Hd & Hr & Hi & ->).
  apply write_output_returns in Ha1 as (ss & Hall & _).
  apply print_summary_returns in Ha2 as (rs' & n & cur & Hr' & Hn & Hc).
  rewrite Hr in Hr'. injection Hr' as <-.
  cbn [all_str] in Hall.
  destruct (all_str 1 items) as [bad|ss'] eqn:E; [discriminate|].
  apply all_str_inr in E. subst items.
  exists (spec_summary_line (truthy (dict_get d "hasRandomization")) (py_str dv)),
    ss', n, (py_str cur).
  exists d, dv, rs, cur. auto 10.
Qed.

(** A well-formed result is reportable, with the fields it decodes to. *)
Lemma decode_reportable result sr :
  decode_result result = Some sr ->
  reportable result
    (spec_summary_line (sr_hasRandomization sr) (str_of_Z (sr_divisor sr)))
    (sr_results sr) (List.length (sr_results sr)) (sr_currency sr).
Proof.
  unfold decode_result. destruct result as [| | | | |d]; try discriminate.
  destruct (lookup "currency" d) as [[| | |c| |]|] eqn:Hc; try discriminate.
  destruct (lookup "divisor" d) as [[| |n| | |]|] eqn:Hd; try discriminate.
  destruct (lookup "hasRandomization" d) as [[|b| | | |]|] eqn:Hh; try discriminate.
  destruct (lookup "results" d) as [[| | | |l|]|] eqn:Hr; try discriminate.
  destruct (all_str 0 l) as [bad|ss] eqn:Hall; [discriminate|].
  intros [= <-]. cbn [sr_currency sr_divisor sr_hasRandomization sr_results].
  apply all_str_inr in Hall. subst l.
  exists d, (VInt n), (VList (map VStr ss)), (VStr c).
  repeat split; auto.
  - cbn. now rewrite length_map.
  - unfold dict_get. now rewrite Hh.
Qed.

(** ** The checks and the submission *)

Ltac unfold_obtain :=
  unfold obtain, check_api, process_file, requests_get, requests_post, open_read,
    build_options, spec_params, health_ok, health_fails, is_request_exception,
    is_exception, print, emit, sys_exit, raise, ret.

Ltac world_cases w args :=
  destruct (isfile w (input_file args)) eqn:Hisfile; cbn;
  [ destruct (http_get w (api args ++ "/health") 5) as [hr|he] eqn:Hget; cbn;
    [ destruct (status_code hr =? 200) eqn:Hhealth; cbn
    | destruct he as [[] hmsg]; cbn ]
  | ].

Ltac post_cases :=
  match goal with
  | |- context [http_post ?w0 ?u ?p ?c ?h ?t] =>
      destruct (http_post w0 u p c h t) as [resp0|pe] eqn:Hpost0; cbn
  end.

Lemma obtain_returns (w : world) (args : namespace) (result : pyval) :
  snd (obtain w args) = Returns result ->
  exists content resp,
    isfile w (input_file args) = true /\
    health_ok w args = true /\
    read_text w (input_file args) = Ok content /\
    http_post w (api args ++ "/process") (spec_params args) content
              [("Content-Type", "text/plain")] 30 = Ok resp /\
    status_code resp = 200 /\
    json resp = Ok result /\
    fst (obtain w args)
    = [ EGet (api args ++ "/health") 5;
        ERead (input_file args);
        EPost (api args ++ "/process") (spec_params args) content
              [("Content-Type", "text/plain")] 30 ].
Proof.
  unfold_obtain. world_cases w args; try discriminate.
  destruct (read_text w (input_file args)) as [content|e] eqn:Hread; cbn;
    try discriminate.
  destruct (divisor args), (no_pennies args), (half_dollars args); cbn.
  all: post_cases; try discriminate.
  all: destruct (status_code resp0 =? 200) eqn:Hst; cbn.
  all: destruct (json resp0) as [v|e] eqn:Hjson; cbn; try discriminate.
  all: try (destruct (py_get v "error" (VStr "Unknown error")); cbn; discriminate).
  all: intros [= <-]; exists content, resp0; apply Z.eqb_eq in Hst; auto 10.
Qed.

(** Every effect of lines 97-123 is the health check, the read of the
    input file, the submission, or one line on standard error. *)
Lemma obtain_events (w : world) (args : namespace) (e : event) :
  In e (fst (obtain w args)) ->
  e = EGet (api args ++ "/health") 5 \/
  e = ERead (input_file args) \/
  (exists content,
      read_text w (input_file args) = Ok content /\
      e = EPost (api args ++ "/process") (spec_params args) content
                [("Content-Type", "text/plain")] 30) \/
  (exists text, e = EPrint Stderr text).
Proof.
  unfold_obtain. world_cases w args.
  all: try (cbn; intuition eauto; fail).
  destruct (read_text w (input_file args)) as [content|re] eqn:Hread; cbn.
  2:{ intuition eauto. }
  destruct (divisor args), (no_pennies args), (half_dollars args); cbn.
  all: post_cases.
  all: try (destruct (status_code resp0 =? 200) eqn:Hst; cbn).
  all: try (destruct (json resp0) as [v|je] eqn:Hjson; cbn).
  all: try (destruct (py_get v "error" (VStr "Unknown error")); cbn).
  all: intuition eauto.
Qed.

Lemma main_served (w : world) (args : namespace) (result : pyval) :
  snd (obtain w args) = Returns result ->
  main w args
  = ((fst (obtain w args) ++ fst (report w args result))%list,
     snd (report w args result)).
Proof.
  intros H. unfold main. destruct (obtain w args) as [t r]. cbn in H. subst r.
  apply bind_returns.
Qed.

Lemma main_not_served (w : world) (args : namespace) :
  (forall result, snd (obtain w args) <> Returns result) ->
  fst (main w args) = fst (obtain w args) /\
  exit_code (main w args) = exit_code (obtain w args).
Proof.
  intros H. unfold main, exit_code. destruct (obtain w args) as [t [r|e|c]]; cbn.
  - now destruct (H r).
  - auto.
  - auto.
Qed.

(** ** The effects of a run, in general *)

Lemma bind_events {A B} (P : event -> Prop) (m : run A) (k : A -> run B) :
  Forall P (fst m) -> (forall a, Forall P (fst (k a))) ->
  Forall P (fst (bind m k)).
Proof.
  intros Hm Hk. destruct m as [t [a|e|c]]; cbn in *; try assumption.
  specialize (Hk a). destruct (k a) as [t' r]. cbn in *.
  apply Forall_app. now split.
Qed.

Lemma lift_events {A} (P : event -> Prop) (r : res A) : Forall P (fst (lift r)).
Proof. destruct r; constructor. Qed.

Lemma emit_events (P : event -> Prop) (e : event) :
  P e -> Forall P (fst (emit e)).
Proof. intros H. cbn. now repeat constructor. Qed.

Lemma ret_events {A} (P : event -> Prop) (a : A) : Forall P (fst (ret a)).
Proof. constructor. Qed.

Lemma for_each_events {A} (P : event -> Prop) (l : list A) (body : A -> run unit) :
  (forall x, Forall P (fst (body x))) -> Forall P (fst (for_each l body)).
Proof.
  intros H. induction l as [|x l IH]; cbn [for_each].
  - constructor.
  - apply bind_events; auto.
Qed.

Create HintDb events.
#[local] Hint Resolve bind_events lift_events emit_events ret_events
  for_each_events : events.

Lemma print_quiet f s : Forall quiet (fst (print f s)).
Proof. apply emit_events. now split. Qed.
#[local] Hint Resolve print_quiet : events.

Lemma build_lines_quiet result : Forall quiet (fst (build_lines result)).
Proof.
  unfold build_lines.
  apply bind_events; [auto with events|]. intros has_rand.
  apply bind_events; [destruct (truthy has_rand)|]; auto 10 with events.
Qed.

Lemma print_summary_quiet result p : Forall quiet (fst (print_summary result p)).
Proof. unfold print_summary. auto 20 with events. Qed.

Lemma print_results_quiet result : Forall quiet (fst (print_results result)).
Proof.
  unfold print_results.
  apply bind_events; [auto with events|]. intros has_rand.
  apply bind_events; [destruct (truthy has_rand)|]; auto 10 with events.
Qed.

Lemma quiet_no_http e : quiet e -> is_http e = false.
Proof. now intros []. Qed.

Lemma quiet_writes_only p e : quiet e -> writes_only p e.
Proof. intros [_ H] H'. congruence. Qed.

Lemma write_output_events w p lines :
  Forall (fun e => is_http e = false /\ writes_only p e)
         (fst (write_output w p lines)).
Proof.
  assert (H1 : is_http (EMkdir (parent p) true true) = false
               /\ writes_only p (EMkdir (parent p) true true)).
  { split; [reflexivity|]. intros _. auto. }
  assert (H2 : is_http (EOpenW p) = false /\ writes_only p (EOpenW p)).
  { split; [reflexivity|]. intros _. auto. }
  assert (H3 : forall text, is_http (EWrite p text) = false
                            /\ writes_only p (EWrite p text)).
  { intros text. split; [reflexivity|]. intros _. eauto. }
  rewrite write_output_cases.
  destruct (mkdir_parent (fs w) (parent p)); cbn [fst]; [|auto].
  destruct (open_write (fs w) p); cbn [fst]; [|auto].
  destruct (py_join nl lines) as [text|e]; cbn [fst]; auto.
Qed.

(** The effects of lines 125-163: no HTTP request, and on the file
    system only the choice of the path and the writing of the output
    file. *)
Lemma report_events w args result :
  Forall (fun e => is_http e = false /\
                   (In e (output_dir_events w args) \/
                    writes_only (output_file w args) e))
         (fst (report w args result)).
Proof.
  assert (Hdirs : Forall (fun e => is_http e = false /\
                                   (In e (output_dir_events w args) \/
                                    writes_only (output_file w args) e))
                         (output_dir_events w args)).
  { apply Forall_forall. intros e He. split; [|now left].
    unfold output_dir_events in He. destruct (effective_output args); [easy|].
    destruct He as [<-|[]]. reflexivity. }
  unfold report.
  destruct (resolve_output_path_cases w args)
    as [(x & -> & Hx & _)|(e & -> & _)]; [|exact Hdirs].
  rewrite bind_returns. cbn [fst]. rewrite Hx.
  apply Forall_app. split.
  - apply Forall_forall. intros e He. split; [|now left].
    unfold output_dir_events in He. destruct (effective_output args); [easy|].
    destruct He as [<-|[]]. reflexivity.
  - assert (Hq : forall e, quiet e ->
                   is_http e = false /\
                   (In e (output_dir_events w args) \/
                    writes_only (output_file w args) e)).
    { intros e He. split; [now apply quiet_no_http|].
      right. now apply quiet_writes_only. }
    apply bind_events.
    { eapply Forall_impl; [exact Hq | apply build_lines_quiet]. }
    intros lines. apply bind_events.
    { eapply Forall_impl; [|apply write_output_events].
      cbn. intros e [H1 H2]. auto. }
    intros _. apply bind_events.
    { eapply Forall_impl; [exact Hq | apply print_summary_quiet]. }
    intros _. eapply Forall_impl; [exact Hq | apply print_results_quiet].
Qed.

Lemma main_events (P : event -> Prop) w args :
  Forall P (fst (obtain w args)) ->
  (forall result, served w args result -> Forall P (fst (report w args result))) ->
  Forall P (fst (main w args)).
Proof.
  intros Ho Hr. unfold main. unfold served in Hr.
  destruct (obtain w args) as [t [result|e|c]]; cbn in *; try assumption.
  specialize (Hr result eq_refl). destruct (report w args result) as [t' r].
  cbn in *. apply Forall_app. now split.
Qed.

(** ** Text on standard output *)

Lemma printed_app f t1 t2 : printed f (t1 ++ t2) = printed f t1 ++ printed f t2.
Proof.
  induction t1 as [|e t1 IH]; [reflexivity|].
  destruct e as [[] s| | | | | |], f; cbn; rewrite ?IH, ?append_assoc; reflexivity.
Qed.

Lemma stdout_prints_app t1 t2 :
  stdout_prints (t1 ++ t2) = (stdout_prints t1 ++ stdout_prints t2)%list.
Proof.
  induction t1 as [|e t1 IH]; [reflexivity|].
  destruct e as [[] s| | | | | |]; cbn; rewrite ?IH; reflexivity.
Qed.

(** Printing the lines one by one gives the text of [join] with its
    terminating newline. *)
Lemma printed_lines (s : string) (ls : list string) :
  (s ++ nl) ++ printed Stdout (map (fun l => EPrint Stdout (l ++ nl)) ls)
  = String.concat nl (s :: ls) ++ nl.
Proof.
  revert s. induction ls as [|l ls IH]; intros s.
  - cbn [map printed String.concat]. now rewrite append_nil_r.
  - cbn [map printed]. rewrite IH.
    change (String.concat nl (s :: l :: ls)) with (s ++ nl ++ String.concat nl (l :: ls)).
    now rewrite !append_assoc.
Qed.

Lemma filter_prints (P : event -> bool) (ls : list string) :
  (forall s, P (EPrint Stdout s) = false) ->
  filter P (map (fun l => EPrint Stdout (l ++ nl)) ls) = [].
Proof.
  intros H. induction ls as [|l ls IH]; cbn; [reflexivity|]. now rewrite H.
Qed.

(** ** A served run, as a whole *)

(** The whole of a run whose result is reportable, on a file system
    that lets the program write. *)
Lemma main_reportable w args result summary lines count currency :
  served w args result ->
  reportable result summary lines count currency ->
  dir_ok w args = true ->
  file_ok w args (String.concat nl (summary :: lines) ++ nl) = true ->
  exists content,
    read_text w (input_file args) = Ok content /\
    main w args
    = (([ EGet (api args ++ "/health") 5;
          ERead (input_file args);
          EPost (api args ++ "/process") (spec_params args) content
                [("Content-Type", "text/plain")] 30 ]
        ++ report_trace w args summary lines count currency)%list,
       Returns tt).
Proof.
  intros Hs Hr Hdir Hfile. rewrite (main_served _ _ _ Hs).
  destruct (obtain_returns _ _ _ Hs) as (content & resp & _ & _ & Hread & _ & _ & _ & ->).
  rewrite (report_reportable w args _ _ _ _ _ Hr Hdir Hfile).
  exists content. auto.
Qed.

Lemma file_writes_report_trace w args summary lines count currency :
  filter is_file_write (report_trace w args summary lines count currency)
  = [EWrite (output_file w args) (String.concat nl (summary :: lines) ++ nl)].
Proof.
  unfold report_trace. rewrite !filter_app.
  rewrite filter_prints by reflexivity.
  unfold output_dir_events. destruct (effective_output args); reflexivity.
Qed.

Lemma fs_writes_report_trace w args summary lines count currency :
  filter is_fs_write (report_trace w args summary lines count currency)
  = (output_dir_events w args
     ++ [ EMkdir (parent (output_file w args)) true true;
          EOpenW (output_file w args);
          EWrite (output_file w args) (String.concat nl (summary :: lines) ++ nl) ])%list.
Proof.
  unfold report_trace. rewrite !filter_app.
  rewrite filter_prints by reflexivity.
  unfold output_dir_events. destruct (effective_output args); reflexivity.
Qed.

Lemma printed_report_trace w args summary lines count currency :
  printed Stdout (report_trace w args summary lines count currency)
  = (("Processed " ++ str_of_nat count ++ " transactions (" ++ currency ++ ")") ++ nl)
    ++ (("Output: " ++ Path_str (output_file w args)) ++ nl)
    ++ nl
    ++ ("--- Results ---" ++ nl)
    ++ String.concat nl (summary :: lines) ++ nl.
Proof.
  unfold report_trace. rewrite !printed_app.
  replace (printed Stdout (output_dir_events w args)) with EmptyString
    by (unfold output_dir_events; now destruct (effective_output args)).
  cbn [printed]. rewrite <- printed_lines.
  rewrite !append_assoc. reflexivity.
Qed.

Lemma stdout_prints_report_trace w args summary lines count currency :
  nth_error (stdout_prints (report_trace w args summary lines count currency)) 4
  = Some (summary ++ nl).
Proof.
  unfold report_trace. rewrite !stdout_prints_app.
  replace (stdout_prints (output_dir_events w args)) with (@nil string)
    by (unfold output_dir_events; now destruct (effective_output args)).
  reflexivity.
Qed.

(** ** The import guard *)

Lemma script_with_requests (w : world) (args : namespace) :
  requests_installed w = true -> script w args = main w args.
Proof.
  intros H. unfold script. rewrite H. cbn [negb].
  unfold ret. rewrite bind_returns. now destruct (main w args).
Qed.

Lemma script_without_requests (w : world) (args : namespace) :
  requests_installed w = false ->
  script w args
  = ([EPrint Stdout
        ("Error: requests library required. Install with: pip install requests" ++ nl)],
     Exits 1).
Proof. intros H. unfold script. rewrite H. reflexivity. Qed.

(** ** The submission is made *)

(** The POST is issued as soon as the input file is there, the health
    check passes and the file can be read. *)
Lemma post_request_issued (w : world) (args : namespace) (content : string) :
  isfile w (input_file args) = true ->
  health_ok w args = true ->
  read_text w (input_file args) = Ok content ->
  In (EPost (api args ++ "/process") (spec_params args) content
            [("Content-Type", "text/plain")] 30)
     (fst (main w args)).
Proof.
  intros Hisfile Hhealth Hread.
  unfold main. unfold_obtain. unfold health_ok in Hhealth.
  rewrite Hisfile. cbn.
  destruct (http_get w (api args ++ "/health") 5) as [hr|he]; [|discriminate].
  cbn. rewrite Hhealth, Hread. cbn.
  destruct (divisor args), (no_pennies args), (half_dollars args); cbn.
  all: post_cases.
  all: try (destruct (status_code resp0 =? 200); cbn).
  all: try (destruct (json resp0) as [v|je]; cbn).
  all: try (destruct (py_get v "error" (VStr "Unknown error")); cbn).
  all: try (destruct (report w args v) as [t' r']; cbn).
  all: auto.
Qed.

(** ** [process_file], for any [options] *)

Lemma getitem_not_none (options : list (string * pyval)) (key : string) :
  is_not_none (dict_get options key) = true ->
  py_getitem (VDict options) key = Ok (dict_get options key).
Proof.
  unfold dict_get. cbn. destruct (lookup key options); [reflexivity|discriminate].
Qed.

(** [process_file] in one piece, for any [options] dict. *)
Lemma process_file_cases (w : world) (api_url file_path : string)
      (options : list (string * pyval)) :
  process_file w api_url file_path options
  = match read_text w file_path with
    | Err e => ([ERead file_path], Raises e)
    | Ok content =>
        match http_post w (api_url ++ "/process") (params_of options) content
                        [("Content-Type", "text/plain")] 30 with
        | Err e =>
            ([ERead file_path;
              EPost (api_url ++ "/process") (params_of options) content
                    [("Content-Type", "text/plain")] 30], Raises e)
        | Ok resp =>
            ([ERead file_path;
              EPost (api_url ++ "/process") (params_of options) content
                    [("Content-Type", "text/plain")] 30], process_ending resp)
        end
    end.
Proof.
  unfold process_file, open_read, requests_post, params_of, process_ending, emit.
  destruct (read_text w file_path) as [content|e]; [|reflexivity].
  cbn [lift bind ret fst snd app].
  destruct (is_not_none (dict_get options "divisor")) eqn:Hd.
  - rewrite (getitem_not_none _ _ Hd). cbn [lift bind ret fst snd app dict_set].
    destruct (truthy (dict_get options "no_pennies")),
             (truthy (dict_get options "half_dollars")); cbn.
    all: match goal with
         | |- context [http_post ?w0 ?u ?p ?c ?h ?t] =>
             destruct (http_post w0 u p c h t) as [resp|pe]; cbn
         end; try reflexivity.
    all: destruct (status_code resp =? 200); cbn.
    all: destruct (json resp) as [v|je]; cbn; try reflexivity.
    all: destruct (py_get v "error" (VStr "Unknown error")); reflexivity.
  - cbn [lift bind ret fst snd app dict_set].
    destruct (truthy (dict_get options "no_pennies")),
             (truthy (dict_get options "half_dollars")); cbn.
    all: match goal with
         | |- context [http_post ?w0 ?u ?p ?c ?h ?t] =>
             destruct (http_post w0 u p c h t) as [resp|pe]; cbn
         end; try reflexivity.
    all: destruct (status_code resp =? 200); cbn.
    all: destruct (json resp) as [v|je]; cbn; try reflexivity.
    all: destruct (py_get v "error" (VStr "Unknown error")); reflexivity.
Qed.

Lemma process_ending_no_exit (resp : response) (c : Z) :
  process_ending resp <> Exits c.
Proof.
  unfold process_ending. destruct (status_code resp =? 200), (json resp) as [v|e];
    try discriminate.
  destruct (py_get v "error" (VStr "Unknown error")); discriminate.
Qed.

Lemma process_file_no_exit (w : world) (api_url file_path : string)
      (options : list (string * pyval)) (c : Z) :
  snd (process_file w api_url file_path options) <> Exits c.
Proof.
  rewrite process_file_cases.
  destruct (read_text w file_path) as [content|e]; [|discriminate].
  destruct (http_post _ _ _ _ _ _) as [resp|e]; [|discriminate].
  apply process_ending_no_exit.
Qed.

(** The effects of [process_file]: the read, then at most one POST. *)
Lemma process_file_trace (w : world) (api_url file_path : string)
      (options : list (string * pyval)) :
  fst (process_file w api_url file_path options) = [ERead file_path]
  \/ exists content,
       read_text w file_path = Ok content /\
       fst (process_file w api_url file_path options)
       = [ERead file_path;
          EPost (api_url ++ "/process") (params_of options) content
                [("Content-Type", "text/plain")] 30].
Proof.
  rewrite process_file_cases.
  destruct (read_text w file_path) as [content|e]; [|left; reflexivity].
  right. exists content. split; [reflexivity|].
  destruct (http_post w (api_url ++ "/process") (params_of options) content
                      [("Content-Type", "text/plain")] 30); reflexivity.
Qed.

Lemma lookup_keys (k : string) (d : list (string * pyval)) :
  lookup k d <> None -> In k (map fst d).
Proof.
  induction d as [|[k' v] d IH]; cbn; [congruence|].
  destruct (String.eqb k k') eqn:E.
  - apply String.eqb_eq in E. auto.
  - auto.
Qed.

(** ** The ways lines 125-163 can end *)

Lemma bind_silent {A B} (m : run A) (k : A -> run B) :
  fst m = [] -> (forall a, fst (k a) = []) -> fst (bind m k) = [].
Proof.
  destruct m as [t [a|e|c]]; cbn; intros -> Hk; try reflexivity.
  specialize (Hk a). destruct (k a). cbn in *. now subst.
Qed.

Lemma lift_silent {A} (r : res A) : fst (lift r) = [].
Proof. now destruct r. Qed.

Lemma bind_no_exit {A B} (m : run A) (k : A -> run B) :
  (forall c, snd m <> Exits c) -> (forall a c, snd (k a) <> Exits c) ->
  forall c, snd (bind m k) <> Exits c.
Proof.
  destruct m as [t [a|e|c0]]; cbn; intros Hm Hk c.
  - specialize (Hk a c). now destruct (k a).
  - discriminate.
  - now destruct (Hm c0).
Qed.

Lemma lift_no_exit {A} (r : res A) (c : Z) : snd (lift r) <> Exits c.
Proof. now destruct r. Qed.

Lemma build_lines_silent (result : pyval) : fst (build_lines result) = [].
Proof.
  unfold build_lines.
  apply bind_silent; [apply lift_silent|]. intros h.
  apply bind_silent.
  - destruct (truthy h); (apply bind_silent; [apply lift_silent | reflexivity]).
  - intros l. apply bind_silent; [apply lift_silent|]. intros rs.
    apply bind_silent; [apply lift_silent | reflexivity].
Qed.

Lemma build_lines_no_exit (result : pyval) (c : Z) :
  snd (build_lines result) <> Exits c.
Proof.
  unfold build_lines. revert c.
  apply bind_no_exit; [apply lift_no_exit|]. intros h.
  apply bind_no_exit.
  - destruct (truthy h); (apply bind_no_exit; [apply lift_no_exit | discriminate]).
  - intros l. apply bind_no_exit; [apply lift_no_exit|]. intros rs.
    apply bind_no_exit; [apply lift_no_exit | discriminate].
Qed.

(** [len] counts what iteration yields. *)
Lemma len_iter (v : pyval) (items : list pyval) :
  py_iter v = Ok items -> py_len v = Ok (List.length items).
Proof.
  destruct v; cbn; try discriminate; intros [= <-].
  - f_equal. induction s as [|c s IH]; cbn; [reflexivity | now rewrite IH].
  - reflexivity.
  - now rewrite length_map.
Qed.

(** The ways lines 125-163 can end: while the output path is chosen
    (the default directory cannot be created), while the lines are
    built, while the file is written (its directory, the opening, the
    joining of the lines, the write), while the count and the currency
    are read (the file is written by then), or normally. *)
Lemma report_outcomes (w : world) (args : namespace) (result : pyval) :
  let p := output_file w args in
  (exists e,
      dir_ok w args = false /\
      effective_output args = None /\
      mkdir_output_dir (fs w) (default_output_dir w) = Err e /\
      report w args result = (output_dir_events w args, Raises e))
  \/ (exists e,
         dir_ok w args = true /\
         snd (build_lines result) = Raises e /\
         report w args result = (output_dir_events w args, Raises e))
  \/ (exists lines e,
         dir_ok w args = true /\
         snd (build_lines result) = Returns lines /\
         snd (write_output w p lines) = Raises e /\
         report w args result
         = ((output_dir_events w args ++ fst (write_output w p lines))%list, Raises e))
  \/ (exists lines text e,
         dir_ok w args = true /\
         snd (build_lines result) = Returns lines /\
         py_join nl lines = Ok text /\
         file_ok w args (text ++ nl) = true /\
         snd (print_summary result p) = Raises e /\
         report w args result
         = ((output_dir_events w args
             ++ [EMkdir (parent p) true true; EOpenW p; EWrite p (text ++ nl)])%list,
            Raises e))
  \/ (exists summary lines currency,
         dir_ok w args = true /\
         file_ok w args (String.concat nl (summary :: lines) ++ nl) = true /\
         reportable result summary lines (List.length lines) currency /\
         snd (build_lines result) = Returns (VStr summary :: map VStr lines) /\
         snd (print_summary result p) = Returns tt /\
         report w args result
         = (report_trace w args summary lines (List.length lines) currency,
            Returns tt)).
Proof.
  intros p. subst p. unfold report.
  destruct (resolve_output_path_cases w args)
    as [(x & -> & Hx & Hdir)|(e & -> & Hdir & He & Hm)].
  2:{ left. exists e. auto. }
  right. rewrite bind_returns. rewrite Hx.
  pose proof (build_lines_silent result) as Hsil.
  pose proof (build_lines_no_exit result) as Hne.
  destruct (build_lines result) as [t [lines|e|c]] eqn:Hb; cbn in Hsil; subst t.
  3:{ now destruct (Hne c). }
  2:{ left. exists e. cbn. rewrite app_nil_r. auto. }
  right.
  assert (Hb' : snd (build_lines result) = Returns lines) by now rewrite Hb.
  destruct (build_lines_returns _ _ Hb') as (d & dv & rs & items & -> & Hd & Hr & Hi & ->).
  rewrite bind_returns. cbn [fst snd app].
  set (L := VStr (spec_summary_line (truthy (dict_get d "hasRandomization"))
                                    (py_str dv)) :: items) in *.
  pose proof (write_output_cases w (output_file w args) L) as Hw.
  destruct (write_output w (output_file w args) L) as [tw [[]|ew|cw]] eqn:Ew.
  2:{ left. exists L, ew. rewrite Ew. cbn [fst snd]. auto. }
  2:{ exfalso. revert Hw.
      destruct (mkdir_parent (fs w) _); [|discriminate].
      destruct (open_write (fs w) _); [|discriminate].
      destruct (py_join nl _); [|discriminate].
      destruct (write_text (fs w) _ _); discriminate. }
  right.
  assert (Hret : snd (write_output w (output_file w args) L) = Returns tt)
    by now rewrite Ew.
  apply write_output_returns in Hret as (ss0 & Hall0 & Hk1 & Hk2 & Hk3).
  subst L. cbn [all_str] in Hall0.
  destruct (all_str 1 items) as [bad|ss] eqn:Hall; [discriminate|].
  injection Hall0 as <-. apply all_str_inr in Hall. subst items.
  assert (Hfile : file_ok w args
                    (String.concat nl
                       (spec_summary_line (truthy (dict_get d "hasRandomization"))
                                          (py_str dv) :: ss) ++ nl) = true).
  { unfold file_ok. now rewrite Hk1, Hk2, Hk3. }
  rewrite (write_output_eq _ _ _ _ Hfile) in Ew. injection Ew as <-.
  assert (Hn : py_len rs = Ok (List.length (map VStr ss))) by now apply len_iter.
  rewrite length_map in Hn.
  destruct (lookup "currency" d) as [cur|] eqn:Hc.
  - right.
    exists (spec_summary_line (truthy (dict_get d "hasRandomization")) (py_str dv)),
      ss, (py_str cur).
    assert (Hrep : reportable (VDict d)
                     (spec_summary_line (truthy (dict_get d "hasRandomization"))
                                        (py_str dv))
                     ss (List.length ss) (py_str cur)).
    { exists d, dv, rs, cur. auto 10. }
    split; [exact Hdir|]. split; [exact Hfile|]. split; [exact Hrep|].
    split; [reflexivity|].
    split; [now rewrite (print_summary_eq _ _ _ _ _ Hr Hn Hc)|].
    rewrite bind_returns, (print_summary_eq _ _ _ _ _ Hr Hn Hc), bind_returns.
    rewrite (print_results_eq _ _ _ _ Hd Hr Hi), map_py_str.
    cbn [fst snd app]. reflexivity.
  - left.
    exists (VStr (spec_summary_line (truthy (dict_get d "hasRandomization"))
                                    (py_str dv)) :: map VStr ss),
      (String.concat nl (spec_summary_line (truthy (dict_get d "hasRandomization"))
                                           (py_str dv) :: ss)),
      (mkExn KeyError (repr_str "currency")).
    split; [exact Hdir|]. split; [reflexivity|]. split; [apply join_strings|].
    split; [exact Hfile|].
    unfold print_summary. cbn [py_getitem lift]. rewrite Hr, Hc. cbn.
    rewrite Hn. cbn. auto.
Qed.

(** When lines 125-163 end normally, the effects were those of
    [report_trace], and the file system had let the program write. *)
Lemma report_returns_trace (w : world) (args : namespace) (result : pyval) :
  snd (report w args result) = Returns tt ->
  exists summary lines currency,
    dir_ok w args = true /\
    file_ok w args (String.concat nl (summary :: lines) ++ nl) = true /\
    reportable result summary lines (List.length lines) currency /\
    report w args result
    = (report_trace w args summary lines (List.length lines) currency, Returns tt).
Proof.
  intros H.
  destruct (report_outcomes w args result)
    as [(e & _ & _ & _ & E)|[(e & _ & _ & E)|[(l & e & _ & _ & _ & E)
       |[(l & t & e & _ & _ & _ & _ & _ & E)|(s & l & cur & H1 & H2 & H3 & _ & _ & E)]]]];
    try (rewrite E in H; discriminate).
  exists s, l, cur. auto.
Qed.

(** What a run was that ended normally. *)
Lemma main_returns_trace (w : world) (args : namespace) :
  snd (main w args) = Returns tt ->
  exists result content summary lines currency,
    served w args result /\
    read_text w (input_file args) = Ok content /\
    dir_ok w args = true /\
    file_ok w args (String.concat nl (summary :: lines) ++ nl) = true /\
    reportable result summary lines (List.length lines) currency /\
    main w args
    = (([ EGet (api args ++ "/health") 5;
          ERead (input_file args);
          EPost (api args ++ "/process") (spec_params args) content
                [("Content-Type", "text/plain")] 30 ]
        ++ report_trace w args summary lines (List.length lines) currency)%list,
       Returns tt).
Proof.
  intros H. unfold main in H.
  apply bind_snd_returns in H as (result & Hs & Hr).
  destruct (report_returns_trace _ _ _ Hr) as (s & l & cur & Hdir & Hfile & Hrep & _).
  destruct (main_reportable _ _ _ _ _ _ _ Hs Hrep Hdir Hfile) as (content & Hread & E).
  exists result, content, s, l, cur. auto 10.
Qed.

Lemma map_VStr_inj (l1 l2 : list string) : map VStr l1 = map VStr l2 -> l1 = l2.
Proof.
  revert l2. induction l1 as [|a l1 IH]; intros [|b l2] Hl; try discriminate.
  - reflexivity.
  - cbn in Hl. injection Hl as -> Hl. now rewrite (IH _ Hl).
Qed.

(** The fields a result is reported with are determined by the result. *)
Lemma reportable_unique result s1 l1 n1 c1 s2 l2 n2 c2 :
  reportable result s1 l1 n1 c1 ->
  reportable result s2 l2 n2 c2 ->
  s1 = s2 /\ l1 = l2 /\ n1 = n2 /\ c1 = c2.
Proof.
  intros (d & dv & rs & cur & -> & Hd & Hr & Hi & Hn & Hc & -> & ->)
         (d' & dv' & rs' & cur' & [= <-] & Hd' & Hr' & Hi' & Hn' & Hc' & -> & ->).
  rewrite Hd in Hd'. injection Hd' as <-.
  rewrite Hr in Hr'. injection Hr' as <-.
  rewrite Hc in Hc'. injection Hc' as <-.
  rewrite Hi in Hi'. injection Hi' as Hl.
  rewrite Hn in Hn'. injection Hn' as <-.
  repeat split. now apply map_VStr_inj.
Qed.

(** ** The ways lines 97-123 can end *)

Lemma obtain_outcomes (w : world) (args : namespace) :
  let get := EGet (api args ++ "/health") 5 in
  let P := process_file w (api args) (input_file args) (build_options args) in
  (isfile w (input_file args) = false /\
   obtain w args = ([not_found_line args], Exits 1))
  \/ (isfile w (input_file args) = true /\ health_fails w args = true /\
      obtain w args = ([get; unavailable_line args], Exits 1))
  \/ (isfile w (input_file args) = true /\
      exists e, http_get w (api args ++ "/health") 5 = Err e /\
                is_request_exception e = false /\
                obtain w args = ([get], Raises e))
  \/ (isfile w (input_file args) = true /\ health_ok w args = true /\
      exists v, snd P = Returns v /\ obtain w args = (get :: fst P, Returns v))
  \/ (isfile w (input_file args) = true /\ health_ok w args = true /\
      exists e, snd P = Raises e /\
                obtain w args
                = ((get :: fst P ++ [EPrint Stderr (("Error: " ++ exn_str e) ++ nl)])%list,
                   Exits 1)).
Proof.
  intros get P. subst get.
  pose proof (process_file_no_exit w (api args) (input_file args)
                (build_options args)) as Hne.
  unfold obtain. fold P. fold P in Hne. clearbody P. destruct P as [t r].
  unfold check_api, requests_get, health_fails, health_ok, not_found_line,
    unavailable_line, print, emit, sys_exit, ret.
  destruct (isfile w (input_file args)) eqn:Hisfile; cbn; [|now left].
  right.
  destruct (http_get w (api args ++ "/health") 5) as [hr|he] eqn:Hget; cbn.
  - destruct (status_code hr =? 200) eqn:Hst; cbn.
    + right. right.
      destruct r as [v|e|c]; cbn in *.
      * left. repeat split. exists v. auto.
      * right. repeat split. exists e. auto.
      * now destruct (Hne c).
    + left. auto.
  - destruct (is_request_exception he) eqn:He; cbn.
    + left. auto.
    + right. left. split; [reflexivity|]. exists he. auto.
Qed.

Lemma main_raised (w : world) (args : namespace) (t : list event) (e : exn) :
  obtain w args = (t, Raises e) -> main w args = (t, Raises e).
Proof. intros H. unfold main. now rewrite H. Qed.

Lemma main_exited (w : world) (args : namespace) (t : list event) (c : Z) :
  obtain w args = (t, Exits c) -> main w args = (t, Exits c).
Proof. intros H. unfold main. now rewrite H. Qed.

Lemma main_returned (w : world) (args : namespace) (t : list event) (v : pyval) :
  obtain w args = (t, Returns v) ->
  main w args = ((t ++ fst (report w args v))%list, snd (report w args v)).
Proof. intros H. unfold main. rewrite H. apply bind_returns. Qed.

Lemma report_no_exit (w : world) (args : namespace) (result : pyval) (c : Z) :
  snd (report w args result) <> Exits c.
Proof.
  destruct (report_outcomes w args result)
    as [(e & _ & _ & _ & ->)|[(e & _ & _ & ->)|[(l & e & _ & _ & _ & ->)
       |[(l & t & e & _ & _ & _ & _ & _ & ->)|(s & l & cur & _ & _ & _ & _ & _ & ->)]]]];
    discriminate.
Qed.

Lemma printed_dir_events (f : stream) (w : world) (args : namespace) :
  printed f (output_dir_events w args) = EmptyString.
Proof.
  unfold output_dir_events. destruct (effective_output args), f; reflexivity.
Qed.

Lemma process_file_printed (f : stream) (w : world) (api_url file_path : string)
      (options : list (string * pyval)) :
  printed f (fst (process_file w api_url file_path options)) = EmptyString.
Proof.
  destruct (process_file_trace w api_url file_path options) as [->|(c & _ & ->)];
    now destruct f.
Qed.

Lemma process_file_no_fs (w : world) (api_url file_path : string)
      (options : list (string * pyval)) :
  filter is_fs_write (fst (process_file w api_url file_path options)) = [].
Proof.
  now destruct (process_file_trace w api_url file_path options) as [->|(c & _ & ->)].
Qed.

(** ** Requests *)

Lemma params_of_build_options (args : namespace) :
  params_of (build_options args) = spec_params args.
Proof.
  unfold params_of, build_options, spec_params, dict_get.
  destruct (divisor args), (no_pennies args), (half_dollars args); reflexivity.
Qed.

Lemma filter_none {A} (P : A -> bool) (l : list A) :
  Forall (fun x => P x = false) l -> filter P l = [].
Proof.
  induction 1 as [|x l Hx _ IH]; cbn; [reflexivity|]. now rewrite Hx.
Qed.

Lemma report_no_http (w : world) (args : namespace) (result : pyval) :
  filter is_http (fst (report w args result)) = [].
Proof.
  apply filter_none. eapply Forall_impl; [|apply report_events].
  cbn. now intros e [H _].
Qed.

(** ** Served runs *)

Lemma served_trace (w : world) (args : namespace) (result : pyval) :
  served w args result ->
  exists content,
    obtain w args
    = ([ EGet (api args ++ "/health") 5;
         ERead (input_file args);
         EPost (api args ++ "/process") (spec_params args) content
               [("Content-Type", "text/plain")] 30 ], Returns result).
Proof.
  intros Hs. destruct (obtain_returns _ _ _ Hs) as (content & resp & H).
  exists content. unfold served in Hs.
  destruct (obtain w args) as [t r]. cbn in *. subst r.
  now destruct H as (_ & _ & _ & _ & _ & _ & ->).
Qed.

Lemma filter_fs_dir_events (w : world) (args : namespace) :
  filter is_fs_write (output_dir_events w args) = output_dir_events w args.
Proof. unfold output_dir_events. now destruct (effective_output args). Qed.

Lemma filter_file_dir_events (w : world) (args : namespace) :
  filter is_file_write (output_dir_events w args) = [].
Proof. unfold output_dir_events. now destruct (effective_output args). Qed.

(** ** More on printed text *)

Lemma printed_stderr_prints (ls : list string) :
  printed Stderr (map (fun l => EPrint Stdout (l ++ nl)) ls) = EmptyString.
Proof. induction ls as [|l ls IH]; cbn; [reflexivity | exact IH]. Qed.

Lemma printed_stderr_report_trace w args summary lines count currency :
  printed Stderr (report_trace w args summary lines count currency) = EmptyString.
Proof.
  unfold report_trace. rewrite !printed_app, printed_dir_events.
  cbn [printed]. rewrite printed_stderr_prints. reflexivity.
Qed.


Lemma length_characters (s : string) : List.length (characters s) = String.length s.
Proof. induction s as [|c s IH]; cbn; [reflexivity | now rewrite IH]. Qed.

(** ** Normal paths *)

Lemma plain_component_spec (x : string) :
  plain_component x = true ->
  x <> EmptyString /\ x <> "." /\ string_mem slash x = false.
Proof.
  unfold plain_component. intros H.
  apply andb_true_iff in H as [H H3]. apply andb_true_iff in H as [H1 H2].
  apply negb_true_iff in H1, H2, H3.
  apply String.eqb_neq in H1, H2. auto.
Qed.

Lemma plain_component_intro (x : string) :
  x <> EmptyString -> x <> "." -> string_mem slash x = false ->
  plain_component x = true.
Proof.
  intros H1 H2 H3. unfold plain_component.
  apply String.eqb_neq in H1, H2. now rewrite H1, H2, H3.
Qed.

Lemma parse_parts_plain (rel : string) :
  forallb plain_component (parse_parts rel) = true.
Proof.
  apply forallb_forall. intros x Hx.
  pose proof (parse_parts_no_slash rel) as Hs. rewrite Forall_forall in Hs.
  specialize (Hs _ Hx).
  unfold parse_parts in Hx. apply filter_In in Hx as [_ Hx].
  unfold plain_component. now rewrite Hx, Hs.
Qed.

Lemma splitroot_root (s : string) :
  let r := fst (splitroot s) in r = EmptyString \/ r = "/" \/ r = "//".
Proof.
  unfold splitroot.
  destruct s as [|c0 [|c1 [|c2 s]]]; cbn;
    repeat match goal with
      | |- context [Ascii.eqb ?a ?b] => destruct (Ascii.eqb a b)
      end; cbn; auto.
Qed.

(** [Path(s)] is normal for every string. *)
Lemma Path_of_str_normal (s : string) : normal (Path_of_str s) = true.
Proof.
  unfold normal, Path_of_str.
  pose proof (splitroot_root s) as Hr.
  destruct (splitroot s) as [r rel]. cbn in *.
  rewrite parse_parts_plain, andb_true_r.
  destruct Hr as [->|[->| ->]]; reflexivity.
Qed.

Lemma forallb_removelast {A} (f : A -> bool) (l : list A) :
  forallb f l = true -> forallb f (removelast l) = true.
Proof.
  induction l as [|x l IH]; [reflexivity|].
  cbn [forallb]. intros H. apply andb_true_iff in H as [Hx Hl].
  destruct l as [|y l]; [reflexivity|].
  cbn [removelast forallb]. rewrite Hx. exact (IH Hl).
Qed.

Lemma parent_normal (p : Path) : normal p = true -> normal (parent p) = true.
Proof.
  unfold normal, parent. intros H.
  destruct (parts p) eqn:E; [now rewrite E|].
  apply andb_true_iff in H as [Hr Hp]. cbn [root parts].
  rewrite Hr. cbn [andb]. rewrite <- E. apply forallb_removelast.
  now rewrite E.
Qed.

Lemma default_output_file_normal (w : world) (args : namespace) :
  normal (default_output_file w args) = true.
Proof.
  pose proof (parent_normal _ (Path_of_str_normal (script_file w))) as H.
  unfold normal in H |- *. apply andb_true_iff in H as [Hr Hp].
  unfold default_output_file, default_output_dir. cbn [root parts].
  rewrite Hr. cbn [andb].
  rewrite !forallb_app, Hp. cbn [andb].
  destruct (output_name_simple (stem (Path_of_str (input_file args)))
              (stem_no_slash _)) as (H1 & H2 & H3).
  cbn [forallb]. rewrite (plain_component_intro _ H2 H3 H1). reflexivity.
Qed.

Lemma output_file_normal (w : world) (args : namespace) :
  normal (output_file w args) = true.
Proof.
  unfold output_file. destruct (effective_output args).
  - apply Path_of_str_normal.
  - apply default_output_file_normal.
Qed.

Lemma split_slash_append (x r : string) :
  string_mem slash x = false ->
  split_slash (x ++ String slash r) = x :: split_slash r.
Proof.
  induction x as [|c x IH]; intros H.
  - cbn [append split_slash]. now rewrite Ascii.eqb_refl.
  - cbn [string_mem] in H. apply orb_false_iff in H as [Hc Hx].
    cbn [append split_slash]. rewrite Ascii.eqb_sym, Hc, (IH Hx). reflexivity.
Qed.

Lemma split_slash_concat (x : string) (xs : list string) :
  forallb plain_component (x :: xs) = true ->
  split_slash (String.concat "/" (x :: xs)) = x :: xs.
Proof.
  revert x. induction xs as [|y ys IH]; intros x H.
  - cbn [forallb] in H. apply andb_true_iff in H as [Hx _].
    apply plain_component_spec in Hx as (_ & _ & Hx).
    cbn [String.concat]. now apply split_slash_simple.
  - cbn [forallb] in H. apply andb_true_iff in H as [Hx Hys].
    apply plain_component_spec in Hx as (_ & _ & Hx).
    change (String.concat "/" (x :: y :: ys))
      with (x ++ String slash (String.concat "/" (y :: ys))).
    rewrite (split_slash_append _ _ Hx), (IH y Hys). reflexivity.
Qed.

Lemma filter_all {A} (f : A -> bool) (l : list A) :
  forallb f l = true -> filter f l = l.
Proof.
  induction l as [|x l IH]; [reflexivity|].
  cbn. intros H. apply andb_true_iff in H as [Hx Hl]. now rewrite Hx, (IH Hl).
Qed.

Lemma parse_parts_concat (x : string) (xs : list string) :
  forallb plain_component (x :: xs) = true ->
  parse_parts (String.concat "/" (x :: xs)) = x :: xs.
Proof.
  intros H. unfold parse_parts. rewrite (split_slash_concat _ _ H).
  apply filter_all. apply forallb_forall. intros y Hy.
  rewrite forallb_forall in H. specialize (H _ Hy).
  apply plain_component_spec in H as (H1 & H2 & _).
  apply String.eqb_neq in H1, H2. now rewrite H1, H2.
Qed.

Lemma concat_head (x : string) (xs : list string) :
  plain_component x = true ->
  exists c rest, String.concat "/" (x :: xs) = String c rest
                 /\ Ascii.eqb c slash = false.
Proof.
  intros H. apply plain_component_spec in H as (H1 & _ & H3).
  destruct x as [|c x']; [congruence|].
  cbn [string_mem] in H3. apply orb_false_iff in H3 as [Hc _].
  exists c. destruct xs as [|y ys]; cbn [String.concat append];
    eexists; (split; [reflexivity|]); now rewrite Ascii.eqb_sym.
Qed.

Lemma splitroot_relative (c : ascii) (rest : string) :
  Ascii.eqb c slash = false ->
  splitroot (String c rest) = (EmptyString, String c rest).
Proof. intros H. unfold splitroot. now rewrite H. Qed.

Lemma splitroot_one_slash (c : ascii) (rest : string) :
  Ascii.eqb c slash = false ->
  splitroot (String slash (String c rest)) = ("/", String c rest).
Proof. intros H. unfold splitroot. now rewrite Ascii.eqb_refl, H. Qed.

Lemma splitroot_two_slashes (c : ascii) (rest : string) :
  Ascii.eqb c slash = false ->
  splitroot (String slash (String slash (String c rest))) = ("//", String c rest).
Proof. intros H. unfold splitroot. now rewrite !Ascii.eqb_refl, H. Qed.

(** Rendering a normal path and parsing the text again gives the path
    back. *)
Lemma Path_str_roundtrip (p : Path) :
  normal p = true -> Path_of_str (Path_str p) = p.
Proof.
  destruct p as [r ps]. unfold normal, Path_str. cbn [root parts].
  intros H. apply andb_true_iff in H as [Hr Hp].
  assert (Hr' : r = EmptyString \/ r = "/" \/ r = "//").
  { apply orb_true_iff in Hr as [Hr|Hr];
      [apply orb_true_iff in Hr as [Hr|Hr]|]; apply String.eqb_eq in Hr; auto. }
  destruct ps as [|x xs].
  - destruct Hr' as [->|[->| ->]]; reflexivity.
  - pose proof (parse_parts_concat _ _ Hp) as Hpp.
    cbn [forallb] in Hp. apply andb_true_iff in Hp as [Hx _].
    destruct (concat_head x xs Hx) as (c & rest & E & Hc).
    rewrite E in *. unfold Path_of_str.
    destruct Hr' as [->|[->| ->]].
    + change (EmptyString ++ String c rest) with (String c rest).
      change (String.eqb (String c rest) EmptyString) with false. cbn iota.
      now rewrite (splitroot_relative _ _ Hc), Hpp.
    + change ("/" ++ String c rest) with (String slash (String c rest)).
      change (String.eqb (String slash (String c rest)) EmptyString) with false.
      cbn iota. now rewrite (splitroot_one_slash _ _ Hc), Hpp.
    + change ("//" ++ String c rest)
        with (String slash (String slash (String c rest))).
      change (String.eqb (String slash (String slash (String c rest))) EmptyString)
        with false.
      cbn iota. now rewrite (splitroot_two_slashes _ _ Hc), Hpp.
Qed.

(** ** The footprint on the file system *)

(** The file-system effects a run with output file [p] may have. *)
Lemma footprint_list (w : world) (args : namespace) (l : list event) :
  (forall e, In e l ->
             In e (output_dir_events w args)
             \/ e = EMkdir (parent (output_file w args)) true true
             \/ e = EOpenW (output_file w args)
             \/ (exists body, e = EWrite (output_file w args) (body ++ nl))
             \/ is_fs_write e = false) ->
  Forall (fun e =>
            is_fs_write e = true ->
            In e (output_dir_events w args)
            \/ e = EMkdir (parent (output_file w args)) true true
            \/ e = EOpenW (output_file w args)
            \/ exists body, e = EWrite (output_file w args) (body ++ nl)) l.
Proof.
  intros H. apply Forall_forall. intros e He Hw.
  destruct (H e He) as [H1|[H1|[H1|[H1|H1]]]]; auto. congruence.
Qed.

(** ** Helpers for the properties *)



(** * The properties of the specification *)



(** C2. The summary line, the first of the lines built for the output
    file, reads "* randomization used - divisible by {divisor}" when
    [hasRandomization] is true and "* no entries divisible by {divisor}"
    otherwise (false, or absent), with the result's divisor substituted. *)
Theorem summary_line_by_flag (d : list (string * pyval)) (dv rs : pyval)
        (items : list pyval) (b : bool) :
  lookup "divisor" d = Some dv ->
  lookup "hasRandomization" d = Some (VBool b)
  \/ (lookup "hasRandomization" d = None /\ b = false) ->
  lookup "results" d = Some rs ->
  py_iter rs = Ok items ->
  build_lines (VDict d)
  = ([], Returns (VStr (if b
                        then "* randomization used - divisible by " ++ py_str dv
                        else "* no entries divisible by " ++ py_str dv)
                  :: items)).
Proof.
  intros Hd Hh Hr Hi. rewrite (build_lines_eq _ _ _ _ Hd Hr Hi).
  unfold spec_summary_line, dict_get.
  destruct Hh as [-> | [-> ->]]; reflexivity.
Qed.

Lemma summary_line_by_flag_witness :
  build_lines sample_result
  = ([], Returns [VStr "* randomization used - divisible by 3";
                  VStr "3 quarters,1 dime,3 pennies"; VStr "1 dollar"]).
Proof.
  exact (summary_line_by_flag
           [ ("currency", VStr "USD"); ("divisor", VInt 3);
             ("hasRandomization", VBool true);
             ("results", VList [VStr "3 quarters,1 dime,3 pennies"; VStr "1 dollar"]) ]
           (VInt 3) (VList [VStr "3 quarters,1 dime,3 pennies"; VStr "1 dollar"])
           [VStr "3 quarters,1 dime,3 pennies"; VStr "1 dollar"] true
           eq_refl (or_introl eq_refl) eq_refl eq_refl).
Defined.

(** C3. When the input file does not exist, the run consists of one
    error line on standard error and ends with exit code 1: no HTTP
    request is issued and nothing is created on the file system. *)
Theorem missing_input_file (w : world) (args : namespace) :
  isfile w (input_file args) = false ->
  main w args
  = ([EPrint Stderr (("Error: Input file not found: " ++ input_file args) ++ nl)],
     Exits 1)
  /\ exit_code (main w args) = 1
  /\ filter is_http (fst (main w args)) = []
  /\ filter is_fs_write (fst (main w args)) = [].
Proof.
  intros H.
  assert (E : main w args
              = ([EPrint Stderr (("Error: Input file not found: "
                                  ++ input_file args) ++ nl)], Exits 1)).
  { unfold main, obtain. rewrite H. reflexivity. }
  rewrite E. repeat split.
Qed.

Lemma missing_input_file_witness :
  main sample_world missing_args
  = ([EPrint Stderr (("Error: Input file not found: " ++ "data/missing.txt") ++ nl)],
     Exits 1)
  /\ exit_code (main sample_world missing_args) = 1
  /\ filter is_http (fst (main sample_world missing_args)) = []
  /\ filter is_fs_write (fst (main sample_world missing_args)) = [].
Proof. exact (missing_input_file sample_world missing_args eq_refl). Defined.

(** C4. When the health check fails (a status other than 200, or a
    network failure), the run ends with exit code 1 and no POST is
    issued; with the input file present the run is the health check and
    one error line on standard error. *)
Theorem health_check_failure (w : world) (args : namespace) :
  health_fails w args = true ->
  exit_code (main w args) = 1
  /\ filter is_post (fst (main w args)) = []
  /\ (isfile w (input_file args) = true ->
      main w args
      = ([EGet (api args ++ "/health") 5;
          EPrint Stderr (("Error: API server not available at " ++ api args ++ ". "
                          ++ "Start it with: cd api && npm start") ++ nl)],
         Exits 1)).
Proof.
  unfold main.
  unfold_obtain. world_cases w args; try discriminate; intros _; repeat split;
    try reflexivity; try discriminate.
Qed.

Lemma health_check_failure_witness :
  exit_code (main offline_world sample_args) = 1
  /\ filter is_post (fst (main offline_world sample_args)) = []
  /\ (isfile offline_world (input_file sample_args) = true ->
      main offline_world sample_args
      = ([EGet (api sample_args ++ "/health") 5;
          EPrint Stderr (("Error: API server not available at " ++ api sample_args
                          ++ ". " ++ "Start it with: cd api && npm start") ++ nl)],
         Exits 1)).
Proof. exact (health_check_failure offline_world sample_args eq_refl). Defined.

(** C5, as the code has it. When the POST to /process returns a status
    other than 200, the run ends with exit code 1 after printing
    "Error: " and a message to standard error. When the response body is
    a JSON object, the message is "API error: " followed by the body's
    [error] field, or by "Unknown error" when the object has no such
    field. When the body is not a JSON object, the message is that of
    the exception raised instead: the one of [response.json()] when the
    body does not decode, the [AttributeError] of [.get] when it decodes
    to something else than an object. *)
Theorem api_error_message (w : world) (args : namespace) (content : string)
        (resp : response) :
  isfile w (input_file args) = true ->
  health_ok w args = true ->
  read_text w (input_file args) = Ok content ->
  http_post w (api args ++ "/process") (spec_params args) content
            [("Content-Type", "text/plain")] 30 = Ok resp ->
  status_code resp <> 200 ->
  main w args
  = ([ EGet (api args ++ "/health") 5;
       ERead (input_file args);
       EPost (api args ++ "/process") (spec_params args) content
             [("Content-Type", "text/plain")] 30;
       EPrint Stderr (("Error: " ++ failure_message resp) ++ nl) ],
     Exits 1)
  /\ (forall d, json resp = Ok (VDict d) ->
                failure_message resp
                = "API error: "
                  ++ py_str (match lookup "error" d with
                             | Some e => e
                             | None => VStr "Unknown error"
                             end))
  /\ (forall e, json resp = Err e -> failure_message resp = exn_str e)
  /\ (forall body, json resp = Ok body -> (forall d, body <> VDict d) ->
                   failure_message resp
                   = "'" ++ type_name body ++ "' object has no attribute 'get'").
Proof.
  intros Hisfile Hhealth Hread Hpost Hst.
  split; [|split; [|split]].
  - apply Z.eqb_neq in Hst.
    assert (HP : process_file w (api args) (input_file args) (build_options args)
                 = ([ERead (input_file args);
                     EPost (api args ++ "/process") (spec_params args) content
                           [("Content-Type", "text/plain")] 30],
                    Raises (match json resp with
                            | Ok body =>
                                match py_get body "error" (VStr "Unknown error") with
                                | Ok error =>
                                    mkExn Exception ("API error: " ++ py_str error)
                                | Err e => e
                                end
                            | Err e => e
                            end))).
    { rewrite process_file_cases, params_of_build_options, Hread, Hpost.
      unfold process_ending. rewrite Hst.
      destruct (json resp) as [body|e]; [|reflexivity].
      destruct (py_get body "error" (VStr "Unknown error")); reflexivity. }
    destruct (obtain_outcomes w args)
      as [[H _]|[(_ & H & _)|[(_ & e' & H & _)
                              |[(_ & _ & v & H & _)|(_ & _ & e' & H & E)]]]].
    + congruence.
    + unfold health_ok in Hhealth. unfold health_fails in H.
      destruct (http_get w (api args ++ "/health") 5); [|discriminate].
      rewrite Hhealth in H. discriminate.
    + unfold health_ok in Hhealth. rewrite H in Hhealth. discriminate.
    + rewrite HP in H. discriminate.
    + rewrite HP in H, E. cbn [fst snd app] in *. injection H as <-.
      rewrite (main_exited _ _ _ _ E). unfold failure_message.
      destruct (json resp) as [body|e]; [|reflexivity].
      destruct (py_get body "error" (VStr "Unknown error")); reflexivity.
  - intros d H. unfold failure_message. rewrite H. reflexivity.
  - intros e H. unfold failure_message. now rewrite H.
  - intros body H Hnd. unfold failure_message. rewrite H.
    destruct body; try reflexivity. now destruct (Hnd d).
Qed.

Lemma api_error_message_witness :
  main rejecting_world sample_args
  = ([ EGet (api sample_args ++ "/health") 5;
       ERead (input_file sample_args);
       EPost (api sample_args ++ "/process") (spec_params sample_args)
             ("2.12,3.00" ++ nl) [("Content-Type", "text/plain")] 30;
       EPrint Stderr
         (("Error: "
           ++ failure_message
                (mkResponse 400 (Ok (VDict [("error", VStr "Invalid input format")]))))
          ++ nl) ],
     Exits 1)
  /\ (forall d, Ok (VDict [("error", VStr "Invalid input format")]) = Ok (VDict d) ->
                failure_message
                  (mkResponse 400 (Ok (VDict [("error", VStr "Invalid input format")])))
                = "API error: "
                  ++ py_str (match lookup "error" d with
                             | Some e => e
                             | None => VStr "Unknown error"
                             end))
  /\ (forall e, Ok (VDict [("error", VStr "Invalid input format")]) = Err e ->
                failure_message
                  (mkResponse 400 (Ok (VDict [("error", VStr "Invalid input format")])))
                = exn_str e)
  /\ (forall body,
         Ok (VDict [("error", VStr "Invalid input format")]) = Ok body ->
         (forall d, body <> VDict d) ->
         failure_message
           (mkResponse 400 (Ok (VDict [("error", VStr "Invalid input format")])))
         = "'" ++ type_name body ++ "' object has no attribute 'get'").
Proof.
  refine (api_error_message rejecting_world sample_args ("2.12,3.00" ++ nl)
            (mkResponse 400 (Ok (VDict [("error", VStr "Invalid input format")])))
            eq_refl eq_refl eq_refl eq_refl _).
  cbn. discriminate.
Defined.

(** C5 as stated fails: behind a gateway that answers 502 with a body
    that is not JSON, the response has no [error] field, and the line on
    standard error carries the decoder's message, not "Unknown error". *)
Lemma api_error_without_fallback :
  http_post gateway_world (api sample_args ++ "/process") (spec_params sample_args)
            ("2.12,3.00" ++ nl) [("Content-Type", "text/plain")] 30
  = Ok (mkResponse 502
          (Err (mkExn ValueError "Expecting value: line 1 column 1 (char 0)")))
  /\ error_field (mkResponse 502
          (Err (mkExn ValueError "Expecting value: line 1 column 1 (char 0)"))) = None
  /\ snd (main gateway_world sample_args) = Exits 1
  /\ printed Stderr (fst (main gateway_world sample_args))
     = "Error: Expecting value: line 1 column 1 (char 0)" ++ nl
  /\ index 0 "Unknown error" (printed Stderr (fst (main gateway_world sample_args)))
     = None.
Proof. vm_compute. repeat split. Qed.

(** C6, as the code has it. When [--output] is given with a non-empty
    value, that value is the output path, taken as it is (it is what
    line 145 passes to [Path]): the derived path is not computed and the
    default directory is not created; every change of the file system in
    the run is the creation of that path's parent directory or the
    opening or writing of that file; and a run that ends normally has
    written the file there and shows that path on the console. *)
Theorem output_flag_used (w : world) (args : namespace) (o : string) :
  output args = Some o ->
  o <> EmptyString ->
  resolve_output_path w args = ([], Returns (AsStr o))
  /\ Forall (writes_only (Path_of_str o)) (fst (main w args))
  /\ (snd (main w args) = Returns tt ->
      exists text,
        filter is_fs_write (fst (main w args))
        = [ EMkdir (parent (Path_of_str o)) true true;
            EOpenW (Path_of_str o);
            EWrite (Path_of_str o) text ]
        /\ nth_error (stdout_prints (fst (main w args))) 1
           = Some (("Output: " ++ Path_str (Path_of_str o)) ++ nl)).
Proof.
  intros Ho Hne.
  assert (Ht : truthy (VStr o) = true).
  { cbn. destruct (String.eqb o EmptyString) eqn:E; [|reflexivity].
    apply String.eqb_eq in E. contradiction. }
  assert (He : effective_output args = Some o).
  { rewrite effective_output_truthy, Ho, Ht. reflexivity. }
  assert (Hf : output_file w args = Path_of_str o)
    by (unfold output_file; now rewrite He).
  assert (Hev : output_dir_events w args = [])
    by (unfold output_dir_events; now rewrite He).
  split; [|split].
  - unfold resolve_output_path. rewrite Ho, Ht. reflexivity.
  - apply main_events.
    + apply Forall_forall. intros e Hin Hw.
      destruct (obtain_events _ _ _ Hin) as [->|[->|[(c & _ & ->)|(t & ->)]]];
        discriminate.
    + intros result _. rewrite <- Hf.
      eapply Forall_impl; [|apply report_events].
      cbn. intros e [_ [Hin|H]]; [|exact H].
      rewrite Hev in Hin. destruct Hin.
  - intros H.
    destruct (main_returns_trace _ _ H)
      as (result & content & s & l & cur & _ & _ & _ & _ & _ & ->).
    eexists. cbn [fst]. split.
    + rewrite filter_app, fs_writes_report_trace, Hev, Hf. reflexivity.
    + rewrite stdout_prints_app. unfold report_trace.
      rewrite stdout_prints_app, Hev, Hf. reflexivity.
Qed.

Lemma output_flag_used_witness :
  resolve_output_path sample_world custom_args = ([], Returns (AsStr "out/result.txt"))
  /\ Forall (writes_only (Path_of_str "out/result.txt"))
            (fst (main sample_world custom_args))
  /\ (snd (main sample_world custom_args) = Returns tt ->
      exists text,
        filter is_fs_write (fst (main sample_world custom_args))
        = [ EMkdir (parent (Path_of_str "out/result.txt")) true true;
            EOpenW (Path_of_str "out/result.txt");
            EWrite (Path_of_str "out/result.txt") text ]
        /\ nth_error (stdout_prints (fst (main sample_world custom_args))) 1
           = Some (("Output: " ++ Path_str (Path_of_str "out/result.txt")) ++ nl)).
Proof.
  refine (output_flag_used sample_world custom_args "out/result.txt" eq_refl _).
  discriminate.
Defined.

(** C6 as stated fails: with [--output] given and empty, the default
    directory is created and the file is written to the default path,
    which is not the path of the flag's value. *)
Lemma empty_output_flag_ignored :
  output empty_output_args = Some EmptyString
  /\ filter is_fs_write (fst (main sample_world empty_output_args))
     = [ EMkdir (default_output_dir sample_world) true true;
         EMkdir (parent (default_output_file sample_world empty_output_args)) true true;
         EOpenW (default_output_file sample_world empty_output_args);
         EWrite (default_output_file sample_world empty_output_args)
                ("* randomization used - divisible by 3" ++ nl
                 ++ "3 quarters,1 dime,3 pennies" ++ nl ++ "1 dollar" ++ nl) ]
  /\ default_output_file sample_world empty_output_args <> Path_of_str EmptyString
  /\ Path_str (default_output_file sample_world empty_output_args)
     = "/repo/clients/python/../../output/clients/python/sample-usd-output.txt".
Proof. vm_compute. repeat split. discriminate. Qed.

(** C7. Every POST of a run goes to /process with the text read from the
    input file as its body, sent as plain text with a timeout of 30
    seconds, and with exactly these query parameters: [divisor] when a
    divisor was given, [noPennies] = "true" when the no-pennies flag is
    set, [halfDollars] = "true" when the half-dollars flag is set. *)
Theorem post_request_shape (w : world) (args : namespace) (url : string)
        (params : list (string * pyval)) (data : string)
        (headers : list (string * string)) (timeout : Z) :
  In (EPost url params data headers timeout) (fst (main w args)) ->
  url = api args ++ "/process"
  /\ read_text w (input_file args) = Ok data
  /\ headers = [("Content-Type", "text/plain")]
  /\ timeout = 30
  /\ params = spec_params args
  /\ lookup "divisor" params = option_map VInt (divisor args)
  /\ lookup "noPennies" params
     = (if no_pennies args then Some (VStr "true") else None)
  /\ lookup "halfDollars" params
     = (if half_dollars args then Some (VStr "true") else None).
Proof.
  intros Hin.
  assert (H : In (EPost url params data headers timeout) (fst (obtain w args))).
  { assert (Hall : Forall (fun e => is_post e = true -> In e (fst (obtain w args)))
                          (fst (main w args))).
    { apply main_events.
      - apply Forall_forall. auto.
      - intros result _. eapply Forall_impl; [|apply report_events].
        cbn. intros e [Hh _] Hp. destruct e; discriminate. }
    rewrite Forall_forall in Hall. now apply (Hall _ Hin). }
  destruct (obtain_events _ _ _ H) as [E|[E|[(c & Hread & E)|(t & E)]]];
    try discriminate.
  injection E as -> -> -> -> ->.
  repeat split; try assumption.
  all: unfold spec_params;
    destruct (divisor args), (no_pennies args), (half_dollars args); reflexivity.
Qed.

Lemma post_request_shape_witness :
  api custom_args ++ "/process" = api custom_args ++ "/process"
  /\ read_text sample_world (input_file custom_args)
     = Ok ("2.12,3.00" ++ nl ++ "1.00,2.00" ++ nl)
  /\ [("Content-Type", "text/plain")] = [("Content-Type", "text/plain")]
  /\ 30 = 30
  /\ [("divisor", VInt 5); ("noPennies", VStr "true")] = spec_params custom_args
  /\ lookup "divisor" [("divisor", VInt 5); ("noPennies", VStr "true")]
     = option_map VInt (divisor custom_args)
  /\ lookup "noPennies" [("divisor", VInt 5); ("noPennies", VStr "true")]
     = (if no_pennies custom_args then Some (VStr "true") else None)
  /\ lookup "halfDollars" [("divisor", VInt 5); ("noPennies", VStr "true")]
     = (if half_dollars custom_args then Some (VStr "true") else None).
Proof.
  apply (post_request_shape sample_world custom_args
           (api custom_args ++ "/process")
           [("divisor", VInt 5); ("noPennies", VStr "true")]
           ("2.12,3.00" ++ nl ++ "1.00,2.00" ++ nl)
           [("Content-Type", "text/plain")] 30).
  vm_compute. right. right. left. reflexivity.
Defined.

(** C8, as the code has it. On every run that ends normally, standard
    output is: a line with the transaction count and currency, a line
    with the output path, a blank line, the header line
    "--- Results ---", and then exactly the text that was written to the
    output file; for a well-formed result the count is the number of
    result lines, the currency the result's, and the text the summary
    and result lines. *)
Theorem console_output (w : world) (args : namespace) :
  snd (main w args) = Returns tt ->
  exists count currency text,
    filter is_file_write (fst (main w args)) = [EWrite (output_file w args) text]
    /\ printed Stdout (fst (main w args))
       = (("Processed " ++ str_of_nat count ++ " transactions (" ++ currency ++ ")")
          ++ nl)
         ++ (("Output: " ++ Path_str (output_file w args)) ++ nl)
         ++ nl
         ++ ("--- Results ---" ++ nl)
         ++ text
    /\ (forall result sr,
           served w args result ->
           decode_result result = Some sr ->
           count = List.length (sr_results sr)
           /\ currency = sr_currency sr
           /\ text = spec_file_text sr).
Proof.
  intros H.
  destruct (main_returns_trace _ _ H)
    as (result & content & s & l & cur & Hs & _ & _ & _ & Hrep & ->).
  exists (List.length l), cur, (String.concat nl (s :: l) ++ nl).
  cbn [fst]. split; [|split].
  - rewrite filter_app, file_writes_report_trace. reflexivity.
  - rewrite printed_app, printed_report_trace. reflexivity.
  - intros result' sr Hs' Hd.
    unfold served in Hs, Hs'. rewrite Hs in Hs'. injection Hs' as <-.
    destruct (reportable_unique _ _ _ _ _ _ _ _ _ Hrep (decode_reportable _ _ Hd))
      as (-> & -> & _ & ->).
    repeat split.
Qed.

Lemma console_output_witness :
  exists count currency text,
    filter is_file_write (fst (main sample_world sample_args))
    = [EWrite (output_file sample_world sample_args) text]
    /\ printed Stdout (fst (main sample_world sample_args))
       = (("Processed " ++ str_of_nat count ++ " transactions (" ++ currency ++ ")")
          ++ nl)
         ++ (("Output: " ++ Path_str (output_file sample_world sample_args)) ++ nl)
         ++ nl
         ++ ("--- Results ---" ++ nl)
         ++ text
    /\ (forall result sr,
           served sample_world sample_args result ->
           decode_result result = Some sr ->
           count = List.length (sr_results sr)
           /\ currency = sr_currency sr
           /\ text = spec_file_text sr).
Proof. exact (console_output sample_world sample_args eq_refl). Defined.

(** C8 as stated fails: between the blank line and the block that was
    written to the file, standard output has the header line. *)
Lemma console_output_has_header :
  filter is_file_write (fst (main sample_world sample_args))
  = [EWrite (output_file sample_world sample_args)
            ("* randomization used - divisible by 3" ++ nl
             ++ "3 quarters,1 dime,3 pennies" ++ nl ++ "1 dollar" ++ nl)]
  /\ printed Stdout (fst (main sample_world sample_args))
     <> "Processed 2 transactions (USD)" ++ nl
        ++ "Output: " ++ Path_str (output_file sample_world sample_args) ++ nl
        ++ nl
        ++ ("* randomization used - divisible by 3" ++ nl
            ++ "3 quarters,1 dime,3 pennies" ++ nl ++ "1 dollar" ++ nl)
  /\ printed Stdout (fst (main sample_world sample_args))
     = "Processed 2 transactions (USD)" ++ nl
       ++ "Output: " ++ Path_str (output_file sample_world sample_args) ++ nl
       ++ nl
       ++ "--- Results ---" ++ nl
       ++ ("* randomization used - divisible by 3" ++ nl
           ++ "3 quarters,1 dime,3 pennies" ++ nl ++ "1 dollar" ++ nl).
Proof. vm_compute. repeat split. discriminate. Qed.

(** C9. Whenever a run ends normally, the summary line printed to
    standard output (the fifth [print]) is the summary line at the head
    of the text written to the output file. *)
Theorem summary_lines_agree (w : world) (args : namespace) :
  snd (main w args) = Returns tt ->
  exists summary rest,
    filter is_file_write (fst (main w args))
    = [EWrite (output_file w args) ((summary ++ nl) ++ rest)]
    /\ nth_error (stdout_prints (fst (main w args))) 4 = Some (summary ++ nl).
Proof.
  intros H.
  destruct (main_returns_trace _ _ H)
    as (result & content & summary & lines & currency & _ & _ & _ & _ & _ & ->).
  exists summary, (printed Stdout (map (fun l => EPrint Stdout (l ++ nl)) lines)).
  cbn [fst]. split.
  - rewrite filter_app, file_writes_report_trace, printed_lines. reflexivity.
  - rewrite stdout_prints_app. cbn [stdout_prints app].
    apply stdout_prints_report_trace.
Qed.

Lemma summary_lines_agree_witness :
  exists summary rest,
    filter is_file_write (fst (main sample_world sample_args))
    = [EWrite (output_file sample_world sample_args) ((summary ++ nl) ++ rest)]
    /\ nth_error (stdout_prints (fst (main sample_world sample_args))) 4
       = Some (summary ++ nl).
Proof. exact (summary_lines_agree sample_world sample_args eq_refl). Defined.

(** C10. Without [--output], the output path is chosen by lines
    129-134: in the directory output/clients/python two levels above the
    script's directory, the input file's final component without its
    last suffix followed by "-output.txt". The creation of that
    directory with its parents is asked for, and the path is chosen when
    it succeeds; the directory is the path's parent, whose creation is
    asked for again before the file is opened; and a run that ends
    normally has written the file there and shows that path on the
    console. *)
Theorem default_output_location (w : world) (args : namespace) :
  output args = None ->
  let script_dir := parent (Path_of_str (script_file w)) in
  let dir := mkPath (root script_dir)
                    (parts script_dir ++ [".."; ".."; "output"; "clients"; "python"]) in
  let file := mkPath (root dir)
                     (parts dir ++ [stem (Path_of_str (input_file args))
                                    ++ "-output.txt"]) in
  resolve_output_path w args
  = ([EMkdir dir true true],
     match mkdir_output_dir (fs w) dir with
     | Ok _ => Returns (AsPath file)
     | Err e => Raises e
     end)
  /\ parent file = dir
  /\ (snd (main w args) = Returns tt ->
      exists text,
        filter is_fs_write (fst (main w args))
        = [ EMkdir dir true true;
            EMkdir (parent file) true true;
            EOpenW file;
            EWrite file text ]
        /\ nth_error (stdout_prints (fst (main w args))) 1
           = Some (("Output: " ++ Path_str file) ++ nl)).
Proof.
  intros Ho script_dir dir file.
  change dir with (default_output_dir w).
  change file with (default_output_file w args).
  assert (He : effective_output args = None)
    by (unfold effective_output; now rewrite Ho).
  assert (Hf : output_file w args = default_output_file w args)
    by (unfold output_file; now rewrite He).
  assert (Hev : output_dir_events w args = [EMkdir (default_output_dir w) true true])
    by (unfold output_dir_events; now rewrite He).
  split; [|split].
  - unfold resolve_output_path. rewrite Ho. apply default_output_path_eq.
  - apply parent_default_output_file.
  - intros H.
    destruct (main_returns_trace _ _ H)
      as (result & content & s & l & cur & _ & _ & _ & _ & _ & ->).
    eexists. cbn [fst]. split.
    + rewrite filter_app, fs_writes_report_trace, Hev, Hf. reflexivity.
    + rewrite stdout_prints_app. unfold report_trace.
      rewrite stdout_prints_app, Hev, Hf. reflexivity.
Qed.

Lemma default_output_location_witness :
  let script_dir := parent (Path_of_str (script_file sample_world)) in
  let dir := mkPath (root script_dir)
                    (parts script_dir ++ [".."; ".."; "output"; "clients"; "python"]) in
  let file := mkPath (root dir)
                     (parts dir ++ [stem (Path_of_str (input_file sample_args))
                                    ++ "-output.txt"]) in
  resolve_output_path sample_world sample_args
  = ([EMkdir dir true true],
     match mkdir_output_dir (fs sample_world) dir with
     | Ok _ => Returns (AsPath file)
     | Err e => Raises e
     end)
  /\ parent file = dir
  /\ (snd (main sample_world sample_args) = Returns tt ->
      exists text,
        filter is_fs_write (fst (main sample_world sample_args))
        = [ EMkdir dir true true;
            EMkdir (parent file) true true;
            EOpenW file;
            EWrite file text ]
        /\ nth_error (stdout_prints (fst (main sample_world sample_args))) 1
           = Some (("Output: " ++ Path_str file) ++ nl)).
Proof. exact (default_output_location sample_world sample_args eq_refl). Defined.

(** * Further properties of the code *)

(** ** [check_api] and [process_file] *)

(** X1. [check_api] issues exactly one GET, to /health with a timeout of
    5 seconds; it answers [True] exactly when the server answers 200, it
    turns every [requests.RequestException] into [False], it never calls
    [sys.exit], and the only exceptions that leave it are those that are
    no [RequestException]. *)
Theorem check_api_answer (w : world) (api_url : string) :
  fst (check_api w api_url) = [EGet (api_url ++ "/health") 5]
  /\ (forall c, snd (check_api w api_url) <> Exits c)
  /\ (forall e, snd (check_api w api_url) = Raises e ->
                is_request_exception e = false)
  /\ (snd (check_api w api_url) = Returns true <->
      exists r, http_get w (api_url ++ "/health") 5 = Ok r /\ status_code r = 200)
  /\ (forall e, http_get w (api_url ++ "/health") 5 = Err e ->
                is_request_exception e = true ->
                snd (check_api w api_url) = Returns false).
Proof.
  unfold check_api, requests_get, emit, ret.
  destruct (http_get w (api_url ++ "/health") 5) as [r|e] eqn:Hget; cbn.
  - repeat split; try discriminate.
    + intros [= H]. exists r. split; [reflexivity | now apply Z.eqb_eq].
    + intros (r' & [= <-] & H). now rewrite H.
  - destruct (is_request_exception e) eqn:He; cbn; repeat split; try discriminate.
    + intros (r' & [=] & _).
    + intros e' [= <-]. exact He.
    + intros (r' & [=] & _).
    + intros e' [= <-] He'. congruence.
Qed.

(** X2. [process_file] returns a value only when the file was read, the
    POST was answered with status 200 and the body decoded: the value is
    the decoded body, and the effects were the read and that one POST.
    It never calls [sys.exit]. *)
Theorem process_file_returns (w : world) (api_url file_path : string)
        (options : list (string * pyval)) :
  (forall c, snd (process_file w api_url file_path options) <> Exits c)
  /\ (forall v,
         snd (process_file w api_url file_path options) = Returns v ->
         exists content resp,
           read_text w file_path = Ok content /\
           http_post w (api_url ++ "/process") (params_of options) content
                     [("Content-Type", "text/plain")] 30 = Ok resp /\
           status_code resp = 200 /\
           json resp = Ok v /\
           fst (process_file w api_url file_path options)
           = [ERead file_path;
              EPost (api_url ++ "/process") (params_of options) content
                    [("Content-Type", "text/plain")] 30]).
Proof.
  rewrite process_file_cases.
  destruct (read_text w file_path) as [content|e]; [|split; [|intros v]; discriminate].
  destruct (http_post _ _ _ _ _ _) as [resp|e] eqn:Hpost;
    [|split; [|intros v]; discriminate].
  split.
  - intros c. apply process_ending_no_exit.
  - intros v H. cbn [snd] in H. exists content, resp.
    unfold process_ending in H.
    destruct (status_code resp =? 200) eqn:Hst.
    + apply Z.eqb_eq in Hst. destruct (json resp) as [v'|je]; [|discriminate].
      injection H as <-. auto.
    + destruct (json resp) as [v'|je]; [|discriminate].
      destruct (py_get v' "error" (VStr "Unknown error")); discriminate.
Qed.

(** X3. When the input file cannot be read, [process_file] re-raises
    the error of the read and sends nothing to the server. *)
Theorem process_file_unreadable (w : world) (api_url file_path : string)
        (options : list (string * pyval)) (e : exn) :
  read_text w file_path = Err e ->
  process_file w api_url file_path options = ([ERead file_path], Raises e).
Proof. intros H. rewrite process_file_cases, H. reflexivity. Qed.

Lemma process_file_unreadable_witness :
  process_file unreadable_world DEFAULT_API_URL "data/sample-usd.txt"
               (build_options sample_args)
  = ([ERead "data/sample-usd.txt"],
     Raises (mkExn OSError "[Errno 13] Permission denied: 'data/sample-usd.txt'")).
Proof.
  exact (process_file_unreadable unreadable_world DEFAULT_API_URL
           "data/sample-usd.txt" (build_options sample_args) _ eq_refl).
Defined.

(** X4. For any [options] dict, the POST of [process_file] carries
    [divisor] exactly when [options] has a [divisor] that is not [None]
    (with that value, zero included), [noPennies] = "true" exactly when
    [options.get("no_pennies")] is truthy, [halfDollars] = "true" exactly
    when [options.get("half_dollars")] is truthy, and no other
    parameter; keys missing from [options] count as unset. *)
Theorem process_file_params (w : world) (api_url file_path : string)
        (options : list (string * pyval)) (url : string)
        (params : list (string * pyval)) (data : string)
        (headers : list (string * string)) (timeout : Z) :
  In (EPost url params data headers timeout)
     (fst (process_file w api_url file_path options)) ->
  lookup "divisor" params
  = (if is_not_none (dict_get options "divisor")
     then Some (dict_get options "divisor") else None)
  /\ lookup "noPennies" params
     = (if truthy (dict_get options "no_pennies") then Some (VStr "true") else None)
  /\ lookup "halfDollars" params
     = (if truthy (dict_get options "half_dollars") then Some (VStr "true") else None)
  /\ (forall k, lookup k params <> None ->
                k = "divisor" \/ k = "noPennies" \/ k = "halfDollars")
  /\ read_text w file_path = Ok data.
Proof.
  rewrite process_file_cases.
  destruct (read_text w file_path) as [content|e].
  2:{ cbn. intros [H|[]]. discriminate. }
  assert (H : In (EPost url params data headers timeout)
                 [ERead file_path;
                  EPost (api_url ++ "/process") (params_of options) content
                        [("Content-Type", "text/plain")] 30] ->
              params = params_of options /\ data = content).
  { cbn. intros [H|[H|[]]]; [discriminate|]. injection H as <- <- <- <- <-. auto. }
  intros Hin.
  assert (Hp : params = params_of options /\ data = content).
  { apply H. destruct (http_post _ _ _ _ _ _); exact Hin. }
  destruct Hp as [-> ->]. clear H Hin.
  unfold params_of.
  destruct (is_not_none (dict_get options "divisor")),
           (truthy (dict_get options "no_pennies")),
           (truthy (dict_get options "half_dollars")); cbn [app].
  all: repeat split; try reflexivity.
  all: intros k Hk; apply lookup_keys in Hk; cbn in Hk; intuition auto.
Qed.

Lemma process_file_params_witness :
  lookup "divisor" [("divisor", VInt 0); ("halfDollars", VStr "true")]
  = (if is_not_none (dict_get [("divisor", VInt 0); ("half_dollars", VInt 1)] "divisor")
     then Some (dict_get [("divisor", VInt 0); ("half_dollars", VInt 1)] "divisor")
     else None)
  /\ lookup "noPennies" [("divisor", VInt 0); ("halfDollars", VStr "true")]
     = (if truthy (dict_get [("divisor", VInt 0); ("half_dollars", VInt 1)] "no_pennies")
        then Some (VStr "true") else None)
  /\ lookup "halfDollars" [("divisor", VInt 0); ("halfDollars", VStr "true")]
     = (if truthy (dict_get [("divisor", VInt 0); ("half_dollars", VInt 1)] "half_dollars")
        then Some (VStr "true") else None)
  /\ (forall k, lookup k [("divisor", VInt 0); ("halfDollars", VStr "true")] <> None ->
                k = "divisor" \/ k = "noPennies" \/ k = "halfDollars")
  /\ read_text sample_world "data/sample-usd.txt"
     = Ok ("2.12,3.00" ++ nl ++ "1.00,2.00" ++ nl).
Proof.
  apply (process_file_params sample_world DEFAULT_API_URL "data/sample-usd.txt"
           [("divisor", VInt 0); ("half_dollars", VInt 1)]
           (DEFAULT_API_URL ++ "/process")
           [("divisor", VInt 0); ("halfDollars", VStr "true")]
           ("2.12,3.00" ++ nl ++ "1.00,2.00" ++ nl)
           [("Content-Type", "text/plain")] 30).
  vm_compute. right. left. reflexivity.
Defined.

(** ** Exit codes, handled errors, requests *)

(** X5. Once the arguments are parsed (lines 97-163), the exit code of
    the run is 0 or 1, and it is 0 exactly when [main] returns
    normally. *)
Theorem exit_code_zero_or_one (w : world) (args : namespace) :
  (exit_code (main w args) = 0 \/ exit_code (main w args) = 1)
  /\ (exit_code (main w args) = 0 <-> snd (main w args) = Returns tt).
Proof.
  assert (H : snd (main w args) = Returns tt
              \/ (exists e, snd (main w args) = Raises e)
              \/ snd (main w args) = Exits 1).
  { destruct (obtain_outcomes w args)
      as [[_ E]|[(_ & _ & E)|[(_ & e & _ & _ & E)
                              |[(_ & _ & v & _ & E)|(_ & _ & e & _ & E)]]]].
    - rewrite (main_exited _ _ _ _ E). cbn [snd]. auto.
    - rewrite (main_exited _ _ _ _ E). cbn [snd]. auto.
    - rewrite (main_raised _ _ _ _ E). cbn [snd]. eauto.
    - rewrite (main_returned _ _ _ _ E). cbn [snd].
      pose proof (report_no_exit w args v) as Hne.
      destruct (snd (report w args v)) as [[]|e|c]; eauto.
      now destruct (Hne c).
    - rewrite (main_exited _ _ _ _ E). cbn [snd]. auto. }
  unfold exit_code.
  destruct H as [->|[[e ->]| ->]]; (split; [auto|]); split; intros H;
    try reflexivity; discriminate.
Qed.

(** X6. Once the arguments are parsed (lines 97-163), whenever the run
    ends through [sys.exit], the code is 1, standard error holds what
    one [print] of "Error: " followed by a message wrote, standard
    output is empty and no call that changes the file system was
    made. *)
Theorem handled_error_leaves_nothing (w : world) (args : namespace) (c : Z) :
  snd (main w args) = Exits c ->
  c = 1
  /\ (exists msg, printed Stderr (fst (main w args)) = ("Error: " ++ msg) ++ nl)
  /\ printed Stdout (fst (main w args)) = EmptyString
  /\ filter is_fs_write (fst (main w args)) = [].
Proof.
  destruct (obtain_outcomes w args)
    as [[_ E]|[(_ & _ & E)|[(_ & e & _ & _ & E)
                            |[(_ & _ & v & _ & E)|(_ & _ & e & _ & E)]]]].
  - rewrite (main_exited _ _ _ _ E). intros [= <-].
    repeat split. eexists. unfold not_found_line. cbn [fst printed].
    rewrite append_nil_r. reflexivity.
  - rewrite (main_exited _ _ _ _ E). intros [= <-].
    repeat split. eexists. unfold unavailable_line. cbn [fst printed].
    rewrite append_nil_r. reflexivity.
  - rewrite (main_raised _ _ _ _ E). discriminate.
  - rewrite (main_returned _ _ _ _ E). cbn [snd]. intros H.
    now destruct (report_no_exit w args v c).
  - rewrite (main_exited _ _ _ _ E). intros [= <-]. cbn [fst].
    repeat split.
    + exists (exn_str e). cbn [printed]. rewrite printed_app, process_file_printed.
      cbn [printed]. rewrite append_nil_r. reflexivity.
    + cbn [printed]. rewrite printed_app, process_file_printed. reflexivity.
    + cbn [filter is_fs_write]. rewrite filter_app, process_file_no_fs. reflexivity.
Qed.

Lemma handled_error_leaves_nothing_witness :
  1 = 1
  /\ (exists msg, printed Stderr (fst (main rejecting_world sample_args))
                  = ("Error: " ++ msg) ++ nl)
  /\ printed Stdout (fst (main rejecting_world sample_args)) = EmptyString
  /\ filter is_fs_write (fst (main rejecting_world sample_args)) = [].
Proof.
  exact (handled_error_leaves_nothing rejecting_world sample_args 1 eq_refl).
Defined.

(** X7. Whatever [process_file] raises - the failed read, the failed
    POST, the undecodable body, the API error - [main] turns into one
    line "Error: " followed by the text of the exception on standard
    error and exit code 1, after the effects [process_file] had. *)
Theorem process_error_reported (w : world) (args : namespace) (e : exn) :
  isfile w (input_file args) = true ->
  health_ok w args = true ->
  snd (process_file w (api args) (input_file args) (build_options args)) = Raises e ->
  main w args
  = ((EGet (api args ++ "/health") 5
      :: fst (process_file w (api args) (input_file args) (build_options args))
      ++ [EPrint Stderr (("Error: " ++ exn_str e) ++ nl)])%list,
     Exits 1).
Proof.
  intros Hisfile Hhealth Hp.
  assert (Hf : health_fails w args = false).
  { unfold health_ok in Hhealth. unfold health_fails.
    destruct (http_get w (api args ++ "/health") 5); [|discriminate].
    now rewrite Hhealth. }
  destruct (obtain_outcomes w args)
    as [[H _]|[(_ & H & _)|[(_ & e' & H & _)
                            |[(_ & _ & v & H & _)|(_ & _ & e' & H & E)]]]];
    try congruence.
  - unfold health_ok in Hhealth. rewrite H in Hhealth. discriminate.
  - rewrite Hp in H. injection H as <-. now apply main_exited.
Qed.

Lemma process_error_reported_witness :
  main unreadable_world sample_args
  = ([ EGet "http://localhost:3000/health" 5;
       ERead "data/sample-usd.txt";
       EPrint Stderr (("Error: " ++ "[Errno 13] Permission denied: 'data/sample-usd.txt'")
                      ++ nl) ],
     Exits 1).
Proof.
  exact (process_error_reported unreadable_world sample_args
           (mkExn OSError "[Errno 13] Permission denied: 'data/sample-usd.txt'")
           eq_refl eq_refl eq_refl).
Defined.

(** X8. A run makes at most two HTTP requests, never one twice: the
    health check, and after it at most one POST, to /process with the
    text of the input file. *)
Theorem http_requests_in_order (w : world) (args : namespace) :
  filter is_http (fst (main w args)) = []
  \/ filter is_http (fst (main w args)) = [EGet (api args ++ "/health") 5]
  \/ exists content,
       read_text w (input_file args) = Ok content /\
       filter is_http (fst (main w args))
       = [ EGet (api args ++ "/health") 5;
           EPost (api args ++ "/process") (spec_params args) content
                 [("Content-Type", "text/plain")] 30 ].
Proof.
  pose proof (process_file_trace w (api args) (input_file args) (build_options args))
    as HP.
  rewrite params_of_build_options in HP.
  destruct (obtain_outcomes w args)
    as [[_ E]|[(_ & _ & E)|[(_ & e & _ & _ & E)
                            |[(_ & _ & v & _ & E)|(_ & _ & e & _ & E)]]]].
  - rewrite (main_exited _ _ _ _ E). now left.
  - rewrite (main_exited _ _ _ _ E). right. now left.
  - rewrite (main_raised _ _ _ _ E). right. now left.
  - rewrite (main_returned _ _ _ _ E). cbn [fst].
    rewrite filter_app, report_no_http, app_nil_r.
    destruct HP as [->|(c & Hc & ->)]; right; [now left|right].
    exists c. auto.
  - rewrite (main_exited _ _ _ _ E). cbn [fst filter is_http].
    rewrite filter_app. cbn [filter is_http]. rewrite app_nil_r.
    destruct HP as [->|(c & Hc & ->)]; right; [now left|right].
    exists c. auto.
Qed.

(** X9. Nothing is created or written on the file system unless the
    input file was read and the POST was answered with status 200 and a
    body that decodes. *)
Theorem writes_follow_submission (w : world) (args : namespace) (e : event) :
  In e (fst (main w args)) ->
  is_fs_write e = true ->
  exists content resp result,
    read_text w (input_file args) = Ok content /\
    http_post w (api args ++ "/process") (spec_params args) content
              [("Content-Type", "text/plain")] 30 = Ok resp /\
    status_code resp = 200 /\
    json resp = Ok result.
Proof.
  intros Hin Hw.
  destruct (snd (obtain w args)) as [result|ex|c] eqn:Ho.
  - destruct (obtain_returns _ _ _ Ho) as (content & resp & _ & _ & H1 & H2 & H3 & H4 & _).
    exists content, resp, result. auto.
  - destruct (main_not_served w args) as [Hf _]; [rewrite Ho; discriminate|].
    rewrite Hf in Hin.
    destruct (obtain_events _ _ _ Hin) as [->|[->|[(c & _ & ->)|(t & ->)]]];
      discriminate.
  - destruct (main_not_served w args) as [Hf _]; [rewrite Ho; discriminate|].
    rewrite Hf in Hin.
    destruct (obtain_events _ _ _ Hin) as [->|[->|[(c' & _ & ->)|(t & ->)]]];
      discriminate.
Qed.

Lemma writes_follow_submission_witness :
  exists content resp result,
    read_text sample_world (input_file sample_args) = Ok content /\
    http_post sample_world (api sample_args ++ "/process") (spec_params sample_args)
              content [("Content-Type", "text/plain")] 30 = Ok resp /\
    status_code resp = 200 /\
    json resp = Ok result.
Proof.
  apply (writes_follow_submission sample_world sample_args
           (EOpenW (output_file sample_world sample_args))).
  - vm_compute. do 5 right. left. reflexivity.
  - reflexivity.
Defined.

(** ** Results the client cannot report *)

(** X10. When the decoded result cannot be turned into lines - it is
    no object, has no [divisor] or no [results], or [results] cannot be
    iterated - and the output path was chosen without an error, the
    exception leaves [main] uncaught: nothing is printed and the output
    file is not opened, but without [--output] the creation of the
    default directory has been asked for already. *)
Theorem unusable_result_writes_no_file (w : world) (args : namespace)
        (result : pyval) (e : exn) :
  served w args result ->
  dir_ok w args = true ->
  snd (build_lines result) = Raises e ->
  snd (main w args) = Raises e
  /\ filter is_fs_write (fst (main w args)) = output_dir_events w args
  /\ printed Stdout (fst (main w args)) = EmptyString
  /\ printed Stderr (fst (main w args)) = EmptyString.
Proof.
  intros Hs Hdir Hb. destruct (served_trace _ _ _ Hs) as (content & E).
  rewrite (main_returned _ _ _ _ E).
  destruct (report_outcomes w args result)
    as [(e' & Hk & _)|[(e' & _ & Hb' & ->)|[(l & e' & _ & Hb' & _)
       |[(l & t & e' & _ & Hb' & _)|(s & l & cur & _ & _ & _ & Hb' & _)]]]];
    try congruence.
  rewrite Hb in Hb'. injection Hb' as <-.
  cbn [fst snd app filter is_fs_write printed].
  rewrite filter_fs_dir_events, !printed_dir_events. auto.
Qed.

Lemma unusable_result_writes_no_file_witness :
  snd (main (answering_world no_divisor_result) sample_args)
  = Raises (mkExn KeyError "'divisor'")
  /\ filter is_fs_write (fst (main (answering_world no_divisor_result) sample_args))
     = output_dir_events (answering_world no_divisor_result) sample_args
  /\ printed Stdout (fst (main (answering_world no_divisor_result) sample_args))
     = EmptyString
  /\ printed Stderr (fst (main (answering_world no_divisor_result) sample_args))
     = EmptyString.
Proof.
  exact (unusable_result_writes_no_file (answering_world no_divisor_result)
           sample_args no_divisor_result (mkExn KeyError "'divisor'")
           eq_refl eq_refl eq_refl).
Defined.

(** X11. When one of the result lines is not a string and the output
    file could be opened, [join] raises after the opening: the exception
    leaves [main] uncaught, no text is passed to the file, which is left
    empty, and nothing is printed. *)
Theorem unjoinable_lines_leave_empty_file (w : world) (args : namespace)
        (result : pyval) (lines : list pyval) (e : exn) :
  served w args result ->
  dir_ok w args = true ->
  mkdir_parent (fs w) (parent (output_file w args)) = Ok tt ->
  open_write (fs w) (output_file w args) = Ok tt ->
  snd (build_lines result) = Returns lines ->
  py_join nl lines = Err e ->
  snd (main w args) = Raises e
  /\ filter is_fs_write (fst (main w args))
     = (output_dir_events w args
        ++ [ EMkdir (parent (output_file w args)) true true;
             EOpenW (output_file w args) ])%list
  /\ printed Stdout (fst (main w args)) = EmptyString.
Proof.
  intros Hs Hdir Hm Ho Hb Hj. destruct (served_trace _ _ _ Hs) as (content & E).
  rewrite (main_returned _ _ _ _ E).
  assert (Hw : write_output w (output_file w args) lines
               = ([EMkdir (parent (output_file w args)) true true;
                   EOpenW (output_file w args)], Raises e))
    by (now rewrite write_output_cases, Hm, Ho, Hj).
  destruct (report_outcomes w args result)
    as [(e' & Hk & _)|[(e' & _ & Hb' & _)|[(l & e' & _ & Hb' & Hw' & ->)
       |[(l & t & e' & _ & Hb' & Hj' & _)|(s & l & cur & _ & _ & _ & Hb' & _)]]]];
    try congruence; rewrite Hb in Hb'; injection Hb' as Hl; subst lines.
  - rewrite Hw in Hw' |- *. injection Hw' as <-.
    cbn [fst snd app filter is_fs_write printed].
    rewrite filter_app, filter_fs_dir_events, printed_app, printed_dir_events. auto.
  - rewrite join_strings in Hj. discriminate.
Qed.

Lemma unjoinable_lines_leave_empty_file_witness :
  snd (main (answering_world mixed_result) sample_args)
  = Raises (mkExn TypeError "sequence item 2: expected str instance, int found")
  /\ filter is_fs_write (fst (main (answering_world mixed_result) sample_args))
     = (output_dir_events (answering_world mixed_result) sample_args
        ++ [ EMkdir (parent (output_file (answering_world mixed_result) sample_args))
                    true true;
             EOpenW (output_file (answering_world mixed_result) sample_args) ])%list
  /\ printed Stdout (fst (main (answering_world mixed_result) sample_args))
     = EmptyString.
Proof.
  exact (unjoinable_lines_leave_empty_file (answering_world mixed_result)
           sample_args mixed_result
           [VStr "* no entries divisible by 3"; VStr "1 dollar"; VInt 7]
           (mkExn TypeError "sequence item 2: expected str instance, int found")
           eq_refl eq_refl eq_refl eq_refl eq_refl eq_refl).
Defined.

(** X12. When the output file could be written but the count or the
    currency cannot be read ([currency] is missing), the exception
    leaves [main] uncaught after the output file has been written in
    full, and the console shows nothing of it. *)
Theorem unprintable_summary_after_write (w : world) (args : namespace)
        (result : pyval) (lines : list pyval) (text : string) (e : exn) :
  served w args result ->
  dir_ok w args = true ->
  snd (build_lines result) = Returns lines ->
  py_join nl lines = Ok text ->
  file_ok w args (text ++ nl) = true ->
  snd (print_summary result (output_file w args)) = Raises e ->
  snd (main w args) = Raises e
  /\ filter is_file_write (fst (main w args))
     = [EWrite (output_file w args) (text ++ nl)]
  /\ printed Stdout (fst (main w args)) = EmptyString.
Proof.
  intros Hs Hdir Hb Hj Hfile Hp. destruct (served_trace _ _ _ Hs) as (content & E).
  rewrite (main_returned _ _ _ _ E).
  apply file_ok_split in Hfile as (Hm & Ho & Hw).
  assert (Hwo : write_output w (output_file w args) lines
                = ([EMkdir (parent (output_file w args)) true true;
                    EOpenW (output_file w args);
                    EWrite (output_file w args) (text ++ nl)], Returns tt))
    by (now rewrite write_output_cases, Hm, Ho, Hj, Hw).
  destruct (report_outcomes w args result)
    as [(e' & Hk & _)|[(e' & _ & Hb' & _)|[(l & e' & _ & Hb' & Hw' & _)
       |[(l & t & e' & _ & Hb' & Hj' & _ & Hp' & ->)
        |(s & l & cur & _ & _ & _ & Hb' & Hp' & _)]]]];
    try congruence; rewrite Hb in Hb'; injection Hb' as Hl; subst lines.
  - rewrite Hwo in Hw'. discriminate.
  - rewrite Hj in Hj'. injection Hj' as <-.
    rewrite Hp in Hp'. injection Hp' as <-.
    cbn [fst snd app filter is_file_write printed].
    rewrite filter_app, filter_file_dir_events, printed_app, printed_dir_events. auto.
Qed.

Lemma unprintable_summary_after_write_witness :
  snd (main (answering_world no_currency_result) sample_args)
  = Raises (mkExn KeyError "'currency'")
  /\ filter is_file_write (fst (main (answering_world no_currency_result) sample_args))
     = [EWrite (output_file (answering_world no_currency_result) sample_args)
               (("* no entries divisible by 3" ++ nl ++ "1 dollar") ++ nl)]
  /\ printed Stdout (fst (main (answering_world no_currency_result) sample_args))
     = EmptyString.
Proof.
  exact (unprintable_summary_after_write (answering_world no_currency_result)
           sample_args no_currency_result
           [VStr "* no entries divisible by 3"; VStr "1 dollar"]
           ("* no entries divisible by 3" ++ nl ++ "1 dollar")
           (mkExn KeyError "'currency'")
           eq_refl eq_refl eq_refl eq_refl eq_refl eq_refl).
Defined.

(** ** Errors of the file system *)

(** X20. An error of the file system while the output file is opened is
    not caught: when [open(output_path, "w")] raises - [--output] names
    a directory, say - the exception leaves [main], the exit code is 1,
    no text is passed to the file and nothing is printed, whatever the
    result was. *)
Theorem unopenable_output_file (w : world) (args : namespace) (result : pyval)
        (lines : list pyval) (e : exn) :
  served w args result ->
  dir_ok w args = true ->
  snd (build_lines result) = Returns lines ->
  mkdir_parent (fs w) (parent (output_file w args)) = Ok tt ->
  open_write (fs w) (output_file w args) = Err e ->
  snd (main w args) = Raises e
  /\ exit_code (main w args) = 1
  /\ filter is_file_write (fst (main w args)) = []
  /\ printed Stdout (fst (main w args)) = EmptyString
  /\ printed Stderr (fst (main w args)) = EmptyString.
Proof.
  intros Hs Hdir Hb Hm Ho. destruct (served_trace _ _ _ Hs) as (content & E).
  rewrite (main_returned _ _ _ _ E).
  assert (Hw : write_output w (output_file w args) lines
               = ([EMkdir (parent (output_file w args)) true true;
                   EOpenW (output_file w args)], Raises e))
    by (now rewrite write_output_cases, Hm, Ho).
  assert (Hok : is_ok (open_write (fs w) (output_file w args)) = false)
    by now rewrite Ho.
  destruct (report_outcomes w args result)
    as [(e' & Hk & _)|[(e' & _ & Hb' & _)|[(l & e' & _ & Hb' & Hw' & ->)
       |[(l & t & e' & _ & _ & _ & Hf & _)|(s & l & cur & _ & Hf & _)]]]];
    try congruence.
  - rewrite Hb in Hb'. injection Hb' as Hl. subst lines.
    rewrite Hw in Hw' |- *. injection Hw' as <-.
    unfold exit_code. cbn [fst snd app filter is_file_write printed].
    rewrite filter_app, filter_file_dir_events, !printed_app, !printed_dir_events.
    auto.
  - unfold file_ok in Hf. rewrite Hok, andb_false_r in Hf. discriminate.
  - unfold file_ok in Hf. rewrite Hok, andb_false_r in Hf. discriminate.
Qed.

Lemma unopenable_output_file_witness :
  snd (main directory_world directory_args)
  = Raises (mkExn OSError "[Errno 21] Is a directory: 'out'")
  /\ exit_code (main directory_world directory_args) = 1
  /\ filter is_file_write (fst (main directory_world directory_args)) = []
  /\ printed Stdout (fst (main directory_world directory_args)) = EmptyString
  /\ printed Stderr (fst (main directory_world directory_args)) = EmptyString.
Proof.
  exact (unopenable_output_file directory_world directory_args sample_result
           [VStr "* randomization used - divisible by 3";
            VStr "3 quarters,1 dime,3 pennies"; VStr "1 dollar"]
           (mkExn OSError "[Errno 21] Is a directory: 'out'")
           eq_refl eq_refl eq_refl eq_refl eq_refl).
Defined.

(** X21. Without [--output], an error while the default directory is
    created is not caught either, and it comes before the result is
    looked at: the exception leaves [main] with the creation of that
    directory as the only call on the file system, and nothing is
    printed, even for a well-formed result. *)
Theorem uncreatable_default_directory (w : world) (args : namespace)
        (result : pyval) (e : exn) :
  served w args result ->
  effective_output args = None ->
  mkdir_output_dir (fs w) (default_output_dir w) = Err e ->
  snd (main w args) = Raises e
  /\ filter is_fs_write (fst (main w args))
     = [EMkdir (default_output_dir w) true true]
  /\ printed Stdout (fst (main w args)) = EmptyString
  /\ printed Stderr (fst (main w args)) = EmptyString.
Proof.
  intros Hs He Hm. destruct (served_trace _ _ _ Hs) as (content & E).
  rewrite (main_returned _ _ _ _ E).
  assert (Hdir : dir_ok w args = false) by (unfold dir_ok; now rewrite He, Hm).
  assert (Hev : output_dir_events w args = [EMkdir (default_output_dir w) true true])
    by (unfold output_dir_events; now rewrite He).
  destruct (report_outcomes w args result)
    as [(e' & _ & _ & Hm' & ->)|[(e' & Hk & _)|[(l & e' & Hk & _)
       |[(l & t & e' & Hk & _)|(s & l & cur & Hk & _)]]]];
    try congruence.
  rewrite Hm in Hm'. injection Hm' as <-. rewrite Hev. repeat split.
Qed.

Lemma uncreatable_default_directory_witness :
  snd (main (read_only_world sample_result) sample_args)
  = Raises (mkExn OSError "[Errno 30] Read-only file system: '/repo/output'")
  /\ filter is_fs_write (fst (main (read_only_world sample_result) sample_args))
     = [EMkdir (default_output_dir (read_only_world sample_result)) true true]
  /\ printed Stdout (fst (main (read_only_world sample_result) sample_args))
     = EmptyString
  /\ printed Stderr (fst (main (read_only_world sample_result) sample_args))
     = EmptyString.
Proof.
  exact (uncreatable_default_directory (read_only_world sample_result) sample_args
           sample_result
           (mkExn OSError "[Errno 30] Read-only file system: '/repo/output'")
           eq_refl eq_refl eq_refl).
Defined.

(** ** Runs that end normally *)

(** X13. Every run that ends normally has exactly these effects, in
    this order: the health check, the read, the POST, the choice of the
    output path, the creation of its parent directory, the writing of
    the file, and the console output; the count shown is the number of
    result lines written and printed, and standard error stays empty. *)
Theorem normal_run (w : world) (args : namespace) :
  snd (main w args) = Returns tt ->
  exists content summary lines currency,
    read_text w (input_file args) = Ok content
    /\ fst (main w args)
       = ([ EGet (api args ++ "/health") 5;
            ERead (input_file args);
            EPost (api args ++ "/process") (spec_params args) content
                  [("Content-Type", "text/plain")] 30 ]
          ++ report_trace w args summary lines (List.length lines) currency)%list
    /\ printed Stderr (fst (main w args)) = EmptyString.
Proof.
  intros H.
  destruct (main_returns_trace _ _ H)
    as (result & content & s & l & cur & _ & Hread & _ & _ & _ & ->).
  exists content, s, l, cur. repeat split; [exact Hread|].
  cbn [fst]. rewrite printed_app, printed_stderr_report_trace. reflexivity.
Qed.

Lemma normal_run_witness :
  exists content summary lines currency,
    read_text sample_world (input_file sample_args) = Ok content
    /\ fst (main sample_world sample_args)
       = ([ EGet (api sample_args ++ "/health") 5;
            ERead (input_file sample_args);
            EPost (api sample_args ++ "/process") (spec_params sample_args) content
                  [("Content-Type", "text/plain")] 30 ]
          ++ report_trace sample_world sample_args summary lines
                          (List.length lines) currency)%list
    /\ printed Stderr (fst (main sample_world sample_args)) = EmptyString.
Proof. exact (normal_run sample_world sample_args eq_refl). Defined.





(** X17. On every run that ends normally, the path on the console line
    "Output: ..." designates the file that was written: parsed again as
    a path, the text shown is the path the file was opened at, with or
    without [--output]. *)
Theorem shown_path_is_written_path (w : world) (args : namespace) :
  snd (main w args) = Returns tt ->
  exists shown text,
    nth_error (stdout_prints (fst (main w args))) 1 = Some (("Output: " ++ shown) ++ nl)
    /\ filter is_file_write (fst (main w args)) = [EWrite (Path_of_str shown) text].
Proof.
  intros H.
  destruct (main_returns_trace _ _ H)
    as (result & content & s & l & cur & _ & _ & _ & _ & _ & ->).
  exists (Path_str (output_file w args)). eexists. cbn [fst]. split.
  - rewrite stdout_prints_app. unfold report_trace.
    rewrite stdout_prints_app.
    replace (stdout_prints (output_dir_events w args)) with (@nil string)
      by (unfold output_dir_events; now destruct (effective_output args)).
    reflexivity.
  - rewrite filter_app, file_writes_report_trace.
    rewrite (Path_str_roundtrip _ (output_file_normal w args)). reflexivity.
Qed.

Lemma shown_path_is_written_path_witness :
  exists shown text,
    nth_error (stdout_prints (fst (main sample_world custom_args))) 1
    = Some (("Output: " ++ shown) ++ nl)
    /\ filter is_file_write (fst (main sample_world custom_args))
       = [EWrite (Path_of_str shown) text].
Proof. exact (shown_path_is_written_path sample_world custom_args eq_refl). Defined.

(** X15. The summary line follows the truth value Python gives the
    [hasRandomization] field, whatever its type: a non-empty string, a
    non-zero number or a non-empty list count as true, so the string
    "false" gives the line "randomization used"; the divisor is shown as
    [str] renders it. *)
Theorem summary_by_truth_value (w : world) (args : namespace)
        (d : list (string * pyval)) (dv : pyval) :
  served w args (VDict d) ->
  lookup "divisor" d = Some dv ->
  snd (main w args) = Returns tt ->
  nth_error (stdout_prints (fst (main w args))) 4
  = Some ((if truthy (dict_get d "hasRandomization")
           then "* randomization used - divisible by " ++ py_str dv
           else "* no entries divisible by " ++ py_str dv) ++ nl).
Proof.
  intros Hs Hd H.
  destruct (main_returns_trace _ _ H)
    as (result & content & s & l & cur & Hs' & _ & _ & _ & Hrep & ->).
  unfold served in Hs, Hs'. rewrite Hs in Hs'. injection Hs' as <-.
  destruct Hrep as (d' & dv' & rs & cur' & [= <-] & Hd' & _ & _ & _ & _ & -> & _).
  rewrite Hd in Hd'. injection Hd' as <-.
  cbn [fst]. rewrite stdout_prints_app. cbn [stdout_prints app].
  apply stdout_prints_report_trace.
Qed.

Lemma summary_by_truth_value_witness :
  nth_error (stdout_prints (fst (main (answering_world loose_result) sample_args))) 4
  = Some ((if truthy (VStr "false")
           then "* randomization used - divisible by " ++ "3"
           else "* no entries divisible by " ++ "3") ++ nl).
Proof.
  exact (summary_by_truth_value (answering_world loose_result) sample_args
           [ ("currency", VStr "EUR"); ("divisor", VStr "3");
             ("hasRandomization", VStr "false"); ("results", VStr "ab") ]
           (VStr "3") eq_refl eq_refl eq_refl).
Defined.

(** ** The footprint of a run, and the script *)

Lemma write_output_footprint (w : world) (p : Path) (lines : list pyval) (e : event) :
  In e (fst (write_output w p lines)) ->
  e = EMkdir (parent p) true true \/ e = EOpenW p
  \/ exists body, e = EWrite p (body ++ nl).
Proof.
  rewrite write_output_cases.
  destruct (mkdir_parent (fs w) (parent p)); cbn [fst].
  2:{ intros [<-|[]]. auto. }
  destruct (open_write (fs w) p); cbn [fst].
  2:{ intros [<-|[<-|[]]]; auto. }
  destruct (py_join nl lines) as [text|ex]; cbn [fst].
  2:{ intros [<-|[<-|[]]]; auto. }
  intros [<-|[<-|[<-|[]]]]; eauto.
Qed.

(** X18. Whatever the server answers and however the run ends, the only
    changes [main] makes to the file system are: without [--output] the
    creation of the default directory, the creation of the output file's
    parent directory, the opening of the output file, and one write to
    it of a text that ends with a newline. *)
Theorem file_system_footprint (w : world) (args : namespace) :
  Forall (fun e =>
            is_fs_write e = true ->
            In e (output_dir_events w args)
            \/ e = EMkdir (parent (output_file w args)) true true
            \/ e = EOpenW (output_file w args)
            \/ exists body, e = EWrite (output_file w args) (body ++ nl))
         (fst (main w args)).
Proof.
  apply main_events.
  - apply Forall_forall. intros e Hin Hw.
    destruct (obtain_events _ _ _ Hin) as [->|[->|[(c & _ & ->)|(t & ->)]]];
      discriminate.
  - intros result _. apply footprint_list. intros e Hin.
    destruct (report_outcomes w args result)
      as [(ex & _ & _ & _ & R)|[(ex & _ & _ & R)|[(l & ex & _ & _ & _ & R)
         |[(l & t & ex & _ & _ & _ & _ & _ & R)|(s & l & cur & _ & _ & _ & _ & _ & R)]]]];
      rewrite R in Hin; cbn [fst] in Hin.
    + auto.
    + auto.
    + apply in_app_or in Hin as [Hin|Hin]; [auto|].
      destruct (write_output_footprint _ _ _ _ Hin) as [->|[->|[body ->]]]; eauto 10.
    + apply in_app_or in Hin as [Hin|[<-|[<-|[<-|[]]]]]; eauto 10.
    + unfold report_trace in Hin.
      apply in_app_or in Hin as [Hin|Hin]; [auto|].
      apply in_app_or in Hin as [Hin|Hin].
      * cbn in Hin.
        destruct Hin as [<-|[<-|[<-|[<-|[<-|[<-|[<-|[<-|[]]]]]]]]]; eauto 10.
      * apply in_map_iff in Hin as (x & <- & _). auto 10.
Qed.

(** X19. The module as a script: when [requests] cannot be imported,
    the run is one line on standard output - not standard error - and
    exit code 1, and [main] is not entered; otherwise the run is that of
    [main]. *)
Theorem import_guard (w : world) (args : namespace) :
  script w args
  = if requests_installed w then main w args
    else ([EPrint Stdout
             ("Error: requests library required. Install with: pip install requests"
              ++ nl)],
          Exits 1).
Proof.
  unfold script. destruct (requests_installed w); cbn [negb]; [|reflexivity].
  unfold ret. rewrite bind_returns. now destruct (main w args).
Qed.
